(** * Stepik video downloader: resource dispatcher and hierarchy resolver

    A shallow embedding of [stepik_dispatcher.py] and of the resolution and
    quality-selection parts of [downloader.py].

    Python values that flow through the program all come from the JSON
    parser, so they are modelled by one type [json].  Exceptions are an
    explicit result type.  The HTTP transport and the JSON parser are the
    collaborators injected into [StepikDispatcher.__init__]; they act on an
    abstract [World], which is threaded through every call.  The recursion
    of [get_resources_list] is not structural, so it takes fuel; running out
    of fuel is kept apart from the Python outcomes (CPython would report an
    unbounded recursion as a RecursionError once its frame limit is hit). *)

From Stdlib Require Import ZArith String List Bool Arith Lia DecimalString.
From Stdlib Require DecimalZ DecimalPos.
Import ListNotations.

Set Implicit Arguments.
Set Warnings "-register-all".

Local Open Scope string_scope.
Local Open Scope list_scope.

(** ** Python values *)

Module Py.

(** Values produced by [json.loads].  Numbers are integers here; dictionaries
    keep their insertion order and are looked up by their first binding. *)
Inductive json : Type :=
| JNull
| JBool (b : bool)
| JNum (n : Z)
| JStr (s : string)
| JArr (items : list json)
| JObj (fields : list (string * json)).

Inductive exn : Type :=
| KeyError (key : json)
| IndexError
| TypeError
| WrongCredentials (msg : string)
| AuthenticationFailure (msg : string)
| MissingResourceFailure (msg : string)
| ResourceAcquisitionFailure (msg : string)
| ExternalError (name : string).

Inductive result (A : Type) : Type :=
| Ok (a : A)
| Raise (e : exn).

Arguments Ok {A} a.
Arguments Raise {A} e.

Definition rbind {A B} (r : result A) (k : A -> result B) : result B :=
  match r with
  | Ok a => k a
  | Raise e => Raise e
  end.

(** A list comprehension whose element expression may raise. *)
Fixpoint mapR {A B} (f : A -> result B) (l : list A) : result (list B) :=
  match l with
  | [] => Ok []
  | x :: rest =>
      rbind (f x) (fun y => rbind (mapR f rest) (fun ys => Ok (y :: ys)))
  end.

(** [str(n)] for an int. *)
Definition str (n : Z) : string := NilZero.string_of_int (Z.to_int n).

Fixpoint chars (s : string) : list json :=
  match s with
  | EmptyString => []
  | String c rest => JStr (String c EmptyString) :: chars rest
  end.

Fixpoint assoc (key : string) (fields : list (string * json)) : option json :=
  match fields with
  | [] => None
  | (k, v) :: rest => if String.eqb k key then Some v else assoc key rest
  end.

Definition keys (fields : list (string * json)) : list json :=
  map (fun kv => JStr (fst kv)) fields.

(** Truth value of an object in a condition. *)
Definition truthy (v : json) : bool :=
  match v with
  | JNull => false
  | JBool b => b
  | JNum n => negb (n =? 0)%Z
  | JStr s => negb (String.eqb s EmptyString)
  | JArr items => match items with [] => false | _ => true end
  | JObj fields => match fields with [] => false | _ => true end
  end.

(** [v[key]] with a string key. *)
Definition getitem_str (v : json) (key : string) : result json :=
  match v with
  | JObj fields =>
      match assoc key fields with
      | Some x => Ok x
      | None => Raise (KeyError (JStr key))
      end
  | _ => Raise TypeError
  end.

(** Sequence indexing, negative indices counting from the end. *)
Definition index {A} (l : list A) (i : Z) : result A :=
  let n := Z.of_nat (length l) in
  let pos := if (0 <=? i)%Z then Some (Z.to_nat i)
             else if (- n <=? i)%Z then Some (Z.to_nat (n + i))
             else None in
  match pos with
  | Some p => match nth_error l p with Some x => Ok x | None => Raise IndexError end
  | None => Raise IndexError
  end.

(** [v[i]] with an int index. *)
Definition getitem_int (v : json) (i : Z) : result json :=
  match v with
  | JArr items => index items i
  | JStr s => index (chars s) i
  | JObj _ => Raise (KeyError (JNum i))
  | _ => Raise TypeError
  end.

Definition len (v : json) : result nat :=
  match v with
  | JArr items => Ok (length items)
  | JStr s => Ok (String.length s)
  | JObj fields => Ok (length fields)
  | _ => Raise TypeError
  end.

(** The elements a [for] loop or a comprehension visits. *)
Definition iter (v : json) : result (list json) :=
  match v with
  | JArr items => Ok items
  | JStr s => Ok (chars s)
  | JObj fields => Ok (keys fields)
  | _ => Raise TypeError
  end.

(** [v[:k]] and [v[k:]] for [0 <= k]; lists and strings can be sliced,
    nothing else can (CPython 3.10 and 3.11 reject the slice of a dictionary
    with a TypeError). *)
Definition slice_to (v : json) (k : nat) : result json :=
  match v with
  | JArr items => Ok (JArr (firstn k items))
  | JStr s => Ok (JStr (substring 0 k s))
  | _ => Raise TypeError
  end.

Definition slice_from (v : json) (k : nat) : result json :=
  match v with
  | JArr items => Ok (JArr (skipn k items))
  | JStr s => Ok (JStr (substring k (String.length s - k) s))
  | _ => Raise TypeError
  end.

Definition as_int (v : json) : option Z :=
  match v with
  | JNum n => Some n
  | JBool b => Some (if b then 1 else 0)%Z
  | _ => None
  end.

(** [a + b]. *)
Definition add (a b : json) : result json :=
  match a, b with
  | JArr x, JArr y => Ok (JArr (x ++ y))
  | JStr x, JStr y => Ok (JStr (x ++ y))
  | _, _ =>
      match as_int a, as_int b with
      | Some x, Some y => Ok (JNum (x + y))
      | _, _ => Raise TypeError
      end
  end.

(** [a += b]: a list is extended by the elements of any iterable, every
    other type falls back to [a + b]. *)
Definition iadd (a b : json) : result json :=
  match a with
  | JArr x => rbind (iter b) (fun y => Ok (JArr (x ++ y)))
  | _ => add a b
  end.

(** [range(lo, hi)]. *)
Definition range (lo hi : Z) : list Z :=
  map (fun i => (lo + Z.of_nat i)%Z) (seq 0 (Z.to_nat (hi - lo))).

End Py.

Import Py.

(** ** Computations: exceptions, the outside world, and fuel *)

Section Computations.

Variable World : Type.

(** [None] is fuel exhaustion; otherwise a Python outcome and the world it
    leaves behind. *)
Definition M (A : Type) : Type := World -> option (result A * World).

Definition ret {A} (a : A) : M A := fun w => Some (Ok a, w).

Definition raise {A} (e : exn) : M A := fun w => Some (Raise e, w).

Definition bind {A B} (m : M A) (k : A -> M B) : M B :=
  fun w =>
    match m w with
    | Some (Ok a, w') => k a w'
    | Some (Raise e, w') => Some (Raise e, w')
    | None => None
    end.

(** A pure Python operation that may raise. *)
Definition lift {A} (r : result A) : M A := fun w => Some (r, w).

(** A call into a collaborator: it always returns or raises. *)
Definition call {A} (c : World -> result A * World) : M A := fun w => Some (c w).

Definition out_of_fuel {A} : M A := fun _ => None.

End Computations.

Arguments ret {World A} a.
Arguments raise {World A} e.
Arguments bind {World A B} m k.
Arguments lift {World A} r.
Arguments call {World A} c.
Arguments out_of_fuel {World A}.

Declare Scope py_scope.
Delimit Scope py_scope with py.
Notation "x <- m ;; k" := (bind m (fun x => k))
  (at level 61, m at next level, right associativity) : py_scope.
Local Open Scope py_scope.

(** ** stepik_dispatcher.py *)

Record Response : Type := { status_code : Z; text : string }.

(** The [params] dictionary of a resource request: ["ids[]"] and ['page']. *)
Record Params : Type := { ids_param : json; page_param : Z }.

Record HTTPBasicAuth : Type := { username : string; password : string }.

Section Dispatcher.

Variable World : Type.

(** The transport ([requests] unless a test injects another one). *)
Record NetManager : Type := {
  post : string -> list (string * string) -> HTTPBasicAuth ->
         World -> result Response * World;
  get : string -> list (string * string) -> option Params ->
        World -> result Response * World
}.

Record StepikDispatcher : Type := {
  json_parser : string -> World -> result json * World;
  net_manager : NetManager;
  token : json
}.

(** [StepikDispatcher.__init__] *)
Definition init (client_id client_secret : string)
    (auth_manager : string -> string -> HTTPBasicAuth)
    (json_parser : string -> World -> result json * World)
    (net_manager : NetManager) : M World StepikDispatcher :=
  let auth := auth_manager client_id client_secret in
  resp <- call (post net_manager "https://stepik.org/oauth2/token/"
                  [("grant_type", "client_credentials")] auth) ;;
  if (status_code resp =? 200)%Z then
    body <- call (json_parser (text resp)) ;;
    token <- lift (getitem_str body "access_token") ;;
    ret {| json_parser := json_parser; net_manager := net_manager; token := token |}
  else if (status_code resp =? 401)%Z then
    raise (WrongCredentials "Wrong client_id or client_secret")
  else
    raise (AuthenticationFailure
             ("Server responded with code " ++ str (status_code resp))).

(** ['Bearer ' + self.token] *)
Definition bearer (tok : json) : result string :=
  match tok with
  | JStr t => Ok ("Bearer " ++ t)%string
  | _ => Raise TypeError
  end.

Definition authorized_get (self : StepikDispatcher) (url : string)
    (params : option Params) : M World Response :=
  auth <- lift (bearer (token self)) ;;
  call (get (net_manager self) url [("Authorization", auth)] params).

Definition get_and_parse_authorized (self : StepikDispatcher) (url : string)
    : M World json :=
  resp <- authorized_get self url None ;;
  call (json_parser self (text resp)).

Definition acquisition_message (api_resource : string) (status : Z) : string :=
  ("Cannot load resources from Stepik.org (" ++ api_resource ++
   "): server responded with " ++ str status)%string.

Fixpoint get_resources_list (fuel : nat) (self : StepikDispatcher)
    (api_resource : string) (ids : json) (page : Z) : M World json :=
  match fuel with
  | O => out_of_fuel
  | S fuel' =>
      response <- authorized_get self ("http://stepik.org/api/" ++ api_resource)
                    (Some {| ids_param := ids; page_param := page |}) ;;
      if (status_code response =? 200)%Z then
        paginated_list <- call (json_parser self (text response)) ;;
        resources_list <- lift (getitem_str paginated_list api_resource) ;;
        meta <- lift (getitem_str paginated_list "meta") ;;
        has_next <- lift (getitem_str meta "has_next") ;;
        if truthy has_next then
          more <- get_resources_list fuel' self api_resource ids (page + 1) ;;
          lift (iadd resources_list more)
        else
          ret resources_list
      else if (status_code response =? 431)%Z then
        n <- lift (len ids) ;;
        first_half <- lift (slice_to ids (n / 2)) ;;
        left <- get_resources_list fuel' self api_resource first_half 1 ;;
        second_half <- lift (slice_from ids (n / 2)) ;;
        right <- get_resources_list fuel' self api_resource second_half 1 ;;
        lift (add left right)
      else
        raise (ResourceAcquisitionFailure
                 (acquisition_message api_resource (status_code response)))
  end.

Definition get_list_of_week_ids (self : StepikDispatcher) (course_id : Z)
    : M World json :=
  body <- get_and_parse_authorized self
            ("http://stepik.org/api/courses/" ++ str course_id) ;;
  courses <- lift (getitem_str body "courses") ;;
  course <- lift (getitem_int courses 0) ;;
  lift (getitem_str course "sections").

Definition get_lists_of_units (fuel : nat) (self : StepikDispatcher)
    (week_ids : json) : M World (list json) :=
  weeks_data <- get_resources_list fuel self "sections" week_ids 1 ;;
  weeks <- lift (iter weeks_data) ;;
  lift (mapR (fun w => getitem_str w "units") weeks).

Definition get_list_of_lessons_ids (fuel : nat) (self : StepikDispatcher)
    (unit_ids : json) : M World (list json) :=
  units_data <- get_resources_list fuel self "units" unit_ids 1 ;;
  units <- lift (iter units_data) ;;
  lift (mapR (fun u => getitem_str u "lesson") units).

Definition get_lists_of_step_ids (fuel : nat) (self : StepikDispatcher)
    (lesson_ids : json) : M World (list json) :=
  lessons_data <- get_resources_list fuel self "lessons" lesson_ids 1 ;;
  lessons <- lift (iter lessons_data) ;;
  lift (mapR (fun lesson => getitem_str lesson "steps") lessons).

Definition get_list_of_step_data (fuel : nat) (self : StepikDispatcher)
    (step_ids : json) : M World json :=
  get_resources_list fuel self "steps" step_ids 1.

End Dispatcher.

(** ** downloader.py *)

Record StepikVideoUrl : Type := { available_qualities : json }.

(** [step_has_video]: the value of [step_data['block']['video']], whose
    truth value the comprehension tests. *)
Definition step_has_video (step_data : json) : result json :=
  rbind (getitem_str step_data "block") (fun block => getitem_str block "video").

(** [[step_info['block'] for step_info in all_steps_data if step_has_video(step_info)]] *)
Fixpoint only_video_blocks (all_steps_data : list json) : result (list json) :=
  match all_steps_data with
  | [] => Ok []
  | step_info :: rest =>
      rbind (step_has_video step_info) (fun has_video =>
        if truthy has_video then
          rbind (getitem_str step_info "block") (fun block =>
            rbind (only_video_blocks rest) (fun blocks => Ok (block :: blocks)))
        else only_video_blocks rest)
  end.

(** [StepikVideoUrl(available_qualities=block['video']['urls'])] *)
Definition video_of_block (block : json) : result StepikVideoUrl :=
  rbind (getitem_str block "video") (fun video =>
    rbind (getitem_str video "urls") (fun urls =>
      Ok {| available_qualities := urls |})).

(** [[step_id for steps_list in all_step_ids for step_id in steps_list]] *)
Fixpoint flatten (all_step_ids : list json) : result (list json) :=
  match all_step_ids with
  | [] => Ok []
  | steps_list :: rest =>
      rbind (iter steps_list) (fun step_ids =>
        rbind (flatten rest) (fun more => Ok (step_ids ++ more)))
  end.

(** The two comprehensions that turn [all_steps_data] into [week_videos]. *)
Definition extract_videos (all_steps_data : json) : result (list StepikVideoUrl) :=
  rbind (iter all_steps_data) (fun steps =>
    rbind (only_video_blocks steps) (fun blocks =>
      mapR video_of_block blocks)).

(** [only_from_week_number is not None and week_num != only_from_week_number] *)
Definition skipped (only_from_week_number : option Z) (week_num : Z) : bool :=
  match only_from_week_number with
  | Some wanted => negb (week_num =? wanted)%Z
  | None => false
  end.

Section Resolver.

Variable World : Type.

(** The body of the loop over weeks, for a week that is not skipped: from
    the week's unit ids to its list of videos. *)
Definition week_videos (fuel : nat) (self : StepikDispatcher World)
    (unit_ids : json) : M World (list StepikVideoUrl) :=
  all_lesson_ids <- get_list_of_lessons_ids fuel self unit_ids ;;
  all_step_ids <- get_lists_of_step_ids fuel self (JArr all_lesson_ids) ;;
  all_step_ids <- lift (flatten all_step_ids) ;;
  all_steps_data <- get_list_of_step_data fuel self (JArr all_step_ids) ;;
  lift (extract_videos all_steps_data).

(** The loop [for week_num in range(1, len(week_ids) + 1)], with the list
    [videos_by_section] built so far. *)
Fixpoint weeks_loop (fuel : nat) (self : StepikDispatcher World)
    (only_from_week_number : option Z) (all_unit_ids : list json)
    (week_nums : list Z) (videos_by_section : list (list StepikVideoUrl))
    : M World (list (list StepikVideoUrl)) :=
  match week_nums with
  | [] => ret videos_by_section
  | week_num :: rest =>
      if skipped only_from_week_number week_num then
        weeks_loop fuel self only_from_week_number all_unit_ids rest videos_by_section
      else
        unit_ids <- lift (index all_unit_ids (week_num - 1)) ;;
        videos <- week_videos fuel self unit_ids ;;
        weeks_loop fuel self only_from_week_number all_unit_ids rest
          (videos_by_section ++ [videos])
  end.

Definition get_course_videos_urls_by_section (fuel : nat) (course_id : Z)
    (stepik_dispatcher : StepikDispatcher World)
    (only_from_week_number : option Z) : M World (list (list StepikVideoUrl)) :=
  week_ids <- get_list_of_week_ids stepik_dispatcher course_id ;;
  all_unit_ids <- get_lists_of_units fuel stepik_dispatcher week_ids ;;
  n <- lift (len week_ids) ;;
  weeks_loop fuel stepik_dispatcher only_from_week_number all_unit_ids
    (range 1 (Z.of_nat n + 1)) [].

End Resolver.

(** *** The quality selection of [main] *)

(** The pattern [{'quality': args.quality, 'url': url}]: the subject is a
    dictionary that has both keys and whose quality equals the requested
    one; the result is the value bound to [url]. *)
Definition link_matches (quality : string) (link : json) : option json :=
  match link with
  | JObj fields =>
      match assoc "quality" fields, assoc "url" fields with
      | Some (JStr q), Some url => if String.eqb q quality then Some url else None
      | _, _ => None
      end
  | _ => None
  end.

(** The scan [for link in video.available_qualities] with its [break];
    the result is [video_link], [None] when nothing matched. *)
Fixpoint scan_qualities (quality : string) (links : list json) : json :=
  match links with
  | [] => JNull
  | link :: rest =>
      match link_matches quality link with
      | Some url => url
      | None => scan_qualities quality rest
      end
  end.

(** An element of [url_list_with_q]: [{'url': video_link, 'msg': msg}]. *)
Record LinkChoice : Type := { url : json; msg : option string }.

Definition unavailable_message (quality : string) : string :=
  "The requested quality = " ++ quality ++ " is not available!".

(** One turn of the loop [for video in video_urls]. *)
Definition choose_link (quality : string) (video : StepikVideoUrl)
    : result LinkChoice :=
  rbind (iter (available_qualities video)) (fun links =>
    match scan_qualities quality links with
    | JNull =>
        rbind (getitem_int (available_qualities video) 0) (fun first =>
          rbind (getitem_str first "url") (fun video_link =>
            Ok {| url := video_link; msg := Some (unavailable_message quality) |}))
    | video_link => Ok {| url := video_link; msg := None |}
    end).

(** The list [url_list_with_q] of one week. *)
Definition url_list_with_q (quality : string) (video_urls : list StepikVideoUrl)
    : result (list LinkChoice) :=
  mapR (choose_link quality) video_urls.

(** ** Vocabulary of the properties *)

Section Vocabulary.

Variable World : Type.
Variable self : StepikDispatcher World.

(** The request [get_resources_list] sends for a batch of ids and a page. *)
Definition resource_request (api_resource : string) (ids : json) (page : Z)
    : M World Response :=
  authorized_get self ("http://stepik.org/api/" ++ api_resource)
    (Some {| ids_param := ids; page_param := page |}).

(** From world [w] the request is answered with status 200 and a body that
    holds [resources] under the resource's key and a pagination flag whose
    truth value is [has_next]; parsing leaves the world [w']. *)
Definition page_served (api_resource : string) (ids : json) (page : Z)
    (w : World) (resources : json) (has_next : bool) (w' : World) : Prop :=
  exists resp w1 body meta flag,
    resource_request api_resource ids page w = Some (Ok resp, w1) /\
    status_code resp = 200%Z /\
    json_parser self (text resp) w1 = (Ok body, w') /\
    getitem_str body api_resource = Ok resources /\
    getitem_str body "meta" = Ok meta /\
    getitem_str meta "has_next" = Ok flag /\
    truthy flag = has_next.

(** The server serves the item lists [pages] on consecutive pages starting
    at [page]: every page but the last says that there is a next one. *)
Fixpoint pages_served (api_resource : string) (ids : json) (page : Z)
    (w : World) (pages : list (list json)) (w' : World) : Prop :=
  match pages with
  | [] => False
  | items :: rest =>
      match rest with
      | [] => page_served api_resource ids page w (JArr items) false w'
      | _ :: _ =>
          exists w1,
            page_served api_resource ids page w (JArr items) true w1 /\
            pages_served api_resource ids (page + 1) w1 rest w'
      end
  end.

(** A nest of splits of a batch of ids; the atoms are the batches that are
    not split further. *)
Inductive batches : Type :=
| Atom (ids : list json)
| Split (first_half second_half : batches).

Fixpoint ids_of (t : batches) : list json :=
  match t with
  | Atom ids => ids
  | Split l r => ids_of l ++ ids_of r
  end.

Fixpoint depth (t : batches) : nat :=
  match t with
  | Atom _ => 0
  | Split l r => S (Nat.max (depth l) (depth r))
  end.

(** [fetched fuel r t page w results w']: every split of [t] is a batch that
    the server answered with 431 and that is cut at half its length, rounded
    down; the atoms, fetched one after the other from left to right, gave
    the lists [results]. *)
Inductive fetched (fuel : nat) (api_resource : string)
    : batches -> Z -> World -> list (list json) -> World -> Prop :=
| fetched_atom ids page w items w' :
    get_resources_list fuel self api_resource (JArr ids) page w
      = Some (Ok (JArr items), w') ->
    fetched fuel api_resource (Atom ids) page w [items] w'
| fetched_split l r page w resp w1 left w2 right w3 :
    resource_request api_resource (JArr (ids_of l ++ ids_of r)) page w
      = Some (Ok resp, w1) ->
    status_code resp = 431%Z ->
    length (ids_of l) = length (ids_of l ++ ids_of r) / 2 ->
    fetched fuel api_resource l 1 w1 left w2 ->
    fetched fuel api_resource r 1 w2 right w3 ->
    fetched fuel api_resource (Split l r) page w (left ++ right) w3.

(** No batch of exactly one id is ever answered with 431. *)
Definition single_id_never_431 (api_resource : string) : Prop :=
  forall id page w resp w1,
    resource_request api_resource (JArr [id]) page w = Some (Ok resp, w1) ->
    status_code resp <> 431%Z.

(** Status 431 answers a list of ids that is too long: the empty batch is
    never answered with it. *)
Definition empty_never_431 (api_resource : string) : Prop :=
  forall page w resp w1,
    resource_request api_resource (JArr []) page w = Some (Ok resp, w1) ->
    status_code resp <> 431%Z.

(** The walk over the pages of a batch that starts at [page] in world [w]
    comes to a page that announces no next one: the walk ends here, or it
    ends from every page that this one leads to. *)
Inductive walk_ends (api_resource : string) (ids : json) : Z -> World -> Prop :=
| walk_ends_from page w :
    (forall resources w1,
       page_served api_resource ids page w resources true w1 ->
       walk_ends api_resource ids (page + 1) w1) ->
    walk_ends api_resource ids page w.

(** Every walk over the pages of a batch ends; no bound is common to the
    batches or to the worlds. *)
Definition pagination_ends (api_resource : string) : Prop :=
  forall ids page w, walk_ends api_resource ids page w.

(** The call returns or raises, given enough fuel. *)
Definition terminates {A} (m : nat -> M World A) (w : World) : Prop :=
  exists fuel out w', m fuel w = Some (out, w').

(** [f] succeeds on every element of the list in turn, each run starting in
    the world the previous one left. *)
Inductive runs_each {A B} (f : A -> M World B)
    : list A -> World -> list B -> World -> Prop :=
| runs_nil w : runs_each f [] w [] w
| runs_cons x xs y ys w w1 w2 :
    f x w = Some (Ok y, w1) ->
    runs_each f xs w1 ys w2 ->
    runs_each f (x :: xs) w (y :: ys) w2.

(** What the loop does for a week that is not skipped. *)
Definition resolve_week (fuel : nat) (all_unit_ids : list json) (week_num : Z)
    : M World (list StepikVideoUrl) :=
  unit_ids <- lift (index all_unit_ids (week_num - 1)) ;;
  week_videos fuel self unit_ids.

(** Before the loop: the course lists [week_ids], of length [n], and the
    sections request gave the unit id lists [all_unit_ids]. *)
Definition sections_listed (fuel : nat) (course_id : Z) (w : World)
    (all_unit_ids : list json) (n : nat) (w' : World) : Prop :=
  exists week_ids w1,
    get_list_of_week_ids self course_id w = Some (Ok week_ids, w1) /\
    get_lists_of_units fuel self week_ids w1 = Some (Ok all_unit_ids, w') /\
    len week_ids = Ok n.

(** One of the three dispatcher requests of a week raises [e]. *)
Inductive week_fetch_fails (fuel : nat) (unit_ids : json) (w : World)
    (e : exn) (w' : World) : Prop :=
| units_fetch_fails :
    get_resources_list fuel self "units" unit_ids 1 w = Some (Raise e, w') ->
    week_fetch_fails fuel unit_ids w e w'
| lessons_fetch_fails lesson_ids w1 :
    get_list_of_lessons_ids fuel self unit_ids w = Some (Ok lesson_ids, w1) ->
    get_resources_list fuel self "lessons" (JArr lesson_ids) 1 w1
      = Some (Raise e, w') ->
    week_fetch_fails fuel unit_ids w e w'
| steps_fetch_fails lesson_ids w1 step_lists w2 step_ids :
    get_list_of_lessons_ids fuel self unit_ids w = Some (Ok lesson_ids, w1) ->
    get_lists_of_step_ids fuel self (JArr lesson_ids) w1
      = Some (Ok step_lists, w2) ->
    flatten step_lists = Ok step_ids ->
    get_resources_list fuel self "steps" (JArr step_ids) 1 w2
      = Some (Raise e, w') ->
    week_fetch_fails fuel unit_ids w e w'.

(** The three dispatcher requests of a week succeed and the last one gives
    [all_steps_data]. *)
Definition steps_fetched (fuel : nat) (unit_ids : json) (w : World)
    (all_steps_data : json) (w' : World) : Prop :=
  exists lesson_ids w1 step_lists w2 step_ids,
    get_list_of_lessons_ids fuel self unit_ids w = Some (Ok lesson_ids, w1) /\
    get_lists_of_step_ids fuel self (JArr lesson_ids) w1
      = Some (Ok step_lists, w2) /\
    flatten step_lists = Ok step_ids /\
    get_list_of_step_data fuel self (JArr step_ids) w2
      = Some (Ok all_steps_data, w').

(** A dispatcher request made during the resolution of a course raises [e]:
    the sections request, or a request of week [week_num] after the weeks
    before it were resolved. *)
Inductive resolution_fetch_fails (fuel : nat) (course_id : Z)
    (only_from_week_number : option Z) (w : World) (e : exn) (w' : World)
    : Prop :=
| sections_fetch_fails week_ids w1 :
    get_list_of_week_ids self course_id w = Some (Ok week_ids, w1) ->
    get_resources_list fuel self "sections" week_ids 1 w1 = Some (Raise e, w') ->
    resolution_fetch_fails fuel course_id only_from_week_number w e w'
| week_fetch_aborts all_unit_ids n w2 week_num done w3 unit_ids :
    sections_listed fuel course_id w all_unit_ids n w2 ->
    (1 <= week_num <= Z.of_nat n)%Z ->
    skipped only_from_week_number week_num = false ->
    weeks_loop fuel self only_from_week_number all_unit_ids
      (range 1 week_num) [] w2 = Some (Ok done, w3) ->
    index all_unit_ids (week_num - 1) = Ok unit_ids ->
    week_fetch_fails fuel unit_ids w3 e w' ->
    resolution_fetch_fails fuel course_id only_from_week_number w e w'.

End Vocabulary.

(** Every step in the list has a block with a video field; the steps whose
    video is falsy are left out, every other step gives the url list of its
    video, in the order of the steps. *)
Inductive videos_in : list json -> list StepikVideoUrl -> Prop :=
| videos_nil : videos_in [] []
| videos_skip step block video rest out :
    getitem_str step "block" = Ok block ->
    getitem_str block "video" = Ok video ->
    truthy video = false ->
    videos_in rest out ->
    videos_in (step :: rest) out
| videos_keep step block video urls rest out :
    getitem_str step "block" = Ok block ->
    getitem_str block "video" = Ok video ->
    truthy video = true ->
    getitem_str video "urls" = Ok urls ->
    videos_in rest out ->
    videos_in (step :: rest) ({| available_qualities := urls |} :: out).

(** A quality record: a dictionary that gives a quality label and a URL,
    both strings. *)
Definition quality_record (link : json) (record : string * string) : Prop :=
  exists fields,
    link = JObj fields /\
    assoc "quality" fields = Some (JStr (fst record)) /\
    assoc "url" fields = Some (JStr (snd record)).

(** The faults of a missing value: a key or an index that is not there. *)
Definition missing_value_fault (e : exn) : bool :=
  match e with
  | KeyError _ | IndexError => true
  | _ => false
  end.

(** ** Test doubles

    A transport that answers from a table of routes and counts the requests
    it has served, and a parser that decodes the texts of a table. *)

Module Fake.

Definition World : Type := nat.

Record Route : Type := {
  route_url : string;
  route_ids : option (list Z);
  route_page : Z;
  reply : Response
}.

Fixpoint as_nums (items : list json) : option (list Z) :=
  match items with
  | [] => Some []
  | JNum n :: rest => option_map (cons n) (as_nums rest)
  | _ :: _ => None
  end.

Fixpoint nums_eqb (a b : list Z) : bool :=
  match a, b with
  | [], [] => true
  | x :: a', y :: b' => (x =? y)%Z && nums_eqb a' b'
  | _, _ => false
  end.

Definition ids_match (wanted : list Z) (ids : json) : bool :=
  match ids with
  | JArr items =>
      match as_nums items with
      | Some l => nums_eqb wanted l
      | None => false
      end
  | _ => false
  end.

Definition route_matches (url : string) (params : option Params) (r : Route)
    : bool :=
  String.eqb (route_url r) url &&
  match route_ids r, params with
  | None, None => true
  | Some wanted, Some p =>
      ids_match wanted (ids_param p) && (page_param p =? route_page r)%Z
  | _, _ => false
  end.

Definition not_found : Response := {| status_code := 404; text := "" |}.

Definition answer (routes : list Route) (url : string) (params : option Params)
    : Response :=
  match find (route_matches url params) routes with
  | Some r => reply r
  | None => not_found
  end.

Definition net (token_reply : Response) (routes : list Route) : NetManager World :=
  {| post := fun _ _ _ w => (Ok token_reply, S w);
     get := fun url _ params w => (Ok (answer routes url params), S w) |}.

Definition parser (bodies : list (string * json)) (text : string) (w : World)
    : result json * World :=
  match assoc text bodies with
  | Some body => (Ok body, w)
  | None => (Raise (ExternalError "JSONDecodeError"), w)
  end.

Definition dispatcher (routes : list Route) (bodies : list (string * json))
    : StepikDispatcher World :=
  {| json_parser := parser bodies;
     net_manager := net not_found routes;
     token := JStr "secret" |}.

Definition nums (l : list Z) : json := JArr (map JNum l).

Definition ok (label : string) : Response := {| status_code := 200; text := label |}.

Definition status (code : Z) : Response := {| status_code := code; text := "" |}.

Definition api (api_resource : string) (ids : list Z) (page : Z) (r : Response)
    : Route :=
  {| route_url := "http://stepik.org/api/" ++ api_resource;
     route_ids := Some ids; route_page := page; reply := r |}.

(** A page of a resource list. *)
Definition page_body (api_resource : string) (items : list json) (has_next : bool)
    : json :=
  JObj [(api_resource, JArr items); ("meta", JObj [("has_next", JBool has_next)])].

Definition item (n : Z) : json := JObj [("id", JNum n)].

(** Steps 1, 2, 3 do not fit in one request, nor do steps 2, 3. *)
Definition split_routes : list Route :=
  [ api "steps" [1; 2; 3]%Z 1 (status 431);
    api "steps" [1]%Z 1 (ok "step 1");
    api "steps" [2; 3]%Z 1 (status 431);
    api "steps" [2]%Z 1 (ok "step 2");
    api "steps" [3]%Z 1 (ok "step 3") ].

Definition split_bodies : list (string * json) :=
  [ ("step 1", page_body "steps" [item 1] false);
    ("step 2", page_body "steps" [item 2] false);
    ("step 3", page_body "steps" [item 3] false) ].

(** Lesson 7 comes in three pages. *)
Definition paged_routes : list Route :=
  [ api "lessons" [7]%Z 1 (ok "page 1");
    api "lessons" [7]%Z 2 (ok "page 2");
    api "lessons" [7]%Z 3 (ok "page 3") ].

Definition paged_bodies : list (string * json) :=
  [ ("page 1", page_body "lessons" [item 71; item 72] true);
    ("page 2", page_body "lessons" [item 73] true);
    ("page 3", page_body "lessons" [item 74] false) ].

(** The empty batch is answered with 431, every other batch with 200. *)
Definition empty_431 : NetManager World :=
  {| post := fun _ _ _ w => (Ok not_found, S w);
     get := fun _ _ params w =>
       (Ok match params with
           | Some {| ids_param := JArr [] |} => status 431
           | _ => ok "page"
           end, S w) |}.

Definition empty_431_dispatcher : StepikDispatcher World :=
  {| json_parser := parser [("page", page_body "steps" [] false)];
     net_manager := empty_431;
     token := JStr "secret" |}.

End Fake.

(** A course with three weeks; the only step of week 2 has no video. *)
Module Course.

Import Fake.

Definition qualities (name : string) : json :=
  JArr [ JObj [("quality", JStr "360"); ("url", JStr (name ++ "-360"))];
         JObj [("quality", JStr "720"); ("url", JStr (name ++ "-720"))] ].

Definition video_step (name : string) : json :=
  JObj [("block", JObj [("name", JStr "video");
                        ("video", JObj [("urls", qualities name)])])].

Definition text_step : json :=
  JObj [("block", JObj [("name", JStr "text"); ("video", JNull)])].

(** A step whose block has no video field at all. *)
Definition bare_step : json :=
  JObj [("block", JObj [("name", JStr "text")])].

Definition video (name : string) : StepikVideoUrl :=
  {| available_qualities := qualities name |}.

Definition no_qualities : StepikVideoUrl := {| available_qualities := JArr [] |}.

Definition routes : list Route :=
  [ {| route_url := "http://stepik.org/api/courses/5"; route_ids := None;
       route_page := 1; reply := ok "course" |};
    api "sections" [10; 20; 30]%Z 1 (ok "sections");
    api "units" [100]%Z 1 (ok "units 1");
    api "units" [200]%Z 1 (ok "units 2");
    api "units" [300]%Z 1 (ok "units 3");
    api "lessons" [1000]%Z 1 (ok "lessons 1");
    api "lessons" [2000]%Z 1 (ok "lessons 2");
    api "lessons" [3000]%Z 1 (ok "lessons 3");
    api "steps" [1; 2]%Z 1 (ok "steps 1");
    api "steps" [3]%Z 1 (ok "steps 2");
    api "steps" [4]%Z 1 (ok "steps 3") ].

Definition bodies : list (string * json) :=
  [ ("course", JObj [("courses", JArr [JObj [("sections", nums [10; 20; 30]%Z)]])]);
    ("sections", page_body "sections"
       [ JObj [("units", nums [100]%Z)]; JObj [("units", nums [200]%Z)];
         JObj [("units", nums [300]%Z)] ] false);
    ("units 1", page_body "units" [JObj [("lesson", JNum 1000)]] false);
    ("units 2", page_body "units" [JObj [("lesson", JNum 2000)]] false);
    ("units 3", page_body "units" [JObj [("lesson", JNum 3000)]] false);
    ("lessons 1", page_body "lessons" [JObj [("steps", nums [1; 2]%Z)]] false);
    ("lessons 2", page_body "lessons" [JObj [("steps", nums [3]%Z)]] false);
    ("lessons 3", page_body "lessons" [JObj [("steps", nums [4]%Z)]] false);
    ("steps 1", page_body "steps" [video_step "a"; text_step] false);
    ("steps 2", page_body "steps" [text_step] false);
    ("steps 3", page_body "steps" [video_step "b"] false) ].

Definition server : StepikDispatcher World := dispatcher routes bodies.

(** The same course on a server that answers the steps request of week 2
    with status 500. *)
Definition broken_server : StepikDispatcher World :=
  dispatcher (api "steps" [3]%Z 1 (status 500) :: routes) bodies.

(** The same course when the step of week 2 has no video field. *)
Definition bare_server : StepikDispatcher World :=
  dispatcher routes (("steps 2", page_body "steps" [bare_step] false) :: bodies).

(** A token endpoint that answers with the given status. *)
Definition token_endpoint (code : Z) : NetManager World :=
  net {| status_code := code; text := "token" |} [].

Definition token_parser : string -> World -> result json * World :=
  parser [("token", JObj [("access_token", JStr "abc"); ("expires_in", JNum 36000)])].

End Course.

(** ** downloader.py: [main]

    The program after the arguments are parsed.  The file system, the
    transfer of a file and the console are collaborators: they act on the
    world and may raise, an exception of theirs being [ExternalError] with
    the name of its class.  [exit(1)] raises SystemExit. *)

Record Args : Type := {
  client_id : string;
  client_secret : string;
  course_id : Z;
  week_id : option Z;
  quality : string;
  output_dir : string
}.

Definition SystemExit : exn := ExternalError "SystemExit".

(** [except <class>:] for an exception of a collaborator. *)
Definition is_instance (e : exn) (class : string) : bool :=
  match e with
  | ExternalError name => String.eqb name class
  | _ => false
  end.

(** The character of the escape [\n]. *)
Definition newline : string := String (Ascii.ascii_of_nat 10) EmptyString.

Section Main.

Variable World : Type.

(** [os.path.join], [os.path.isdir], [os.makedirs], [os.path.isfile],
    [os.remove], [urllib.request.urlretrieve] (with [reporthook] as its
    third argument) and [print] with its arguments. *)
Record System : Type := {
  path_join : string -> list string -> string;
  isdir : string -> World -> result bool * World;
  makedirs : string -> World -> result unit * World;
  isfile : string -> World -> result bool * World;
  remove : string -> World -> result unit * World;
  urlretrieve : json -> string -> World -> result unit * World;
  print : list string -> World -> result unit * World
}.

(** [try: body] with its [except] clauses: [handlers] gives the clause that
    takes the exception, if there is one. *)
Definition try_except {A} (body : M World A)
    (handlers : exn -> option (M World A)) : M World A :=
  fun w =>
    match body w with
    | Some (Raise e, w') =>
        match handlers e with
        | Some handler => handler w'
        | None => Some (Raise e, w')
        end
    | outcome => outcome
    end.

Variable os : System.

Definition exit {A} : M World A := raise SystemExit.

Definition folder_name (args : Args) (week_num : Z) : string :=
  path_join os (output_dir args) [str (course_id args); ("week_" ++ str week_num)%string].

Definition video_filename (folder_name : string) (video_num : Z) : string :=
  path_join os folder_name [("Video_" ++ str video_num ++ ".mp4")%string].

(** Lines 147 to 156: create the folder if needed. *)
Definition create_folder (folder_name : string) : M World unit :=
  there <- call (isdir os folder_name) ;;
  if negb there then
    try_except (call (makedirs os folder_name))
      (fun e =>
         if is_instance e "PermissionError" then
           Some (_ <- call (print os ["Run the script from admin"]) ;; exit)
         else if is_instance e "FileExistsError" then
           Some (_ <- call (print os [("Please delete the folder " ++ folder_name)%string]) ;;
                 exit)
         else None)
  else ret tt.

(** The truth value of [el['msg']]. *)
Definition has_message (el : LinkChoice) : option string :=
  match msg el with
  | Some text => if String.eqb text "" then None else Some text
  | None => None
  end.

(** Lines 161 to 180: one turn of the loop over [url_list_with_q]. *)
Definition download_video (folder_name : string) (video_num : Z)
    (el : LinkChoice) : M World unit :=
  _ <- match has_message el with
       | Some text => call (print os [text])
       | None => ret tt
       end ;;
  let filename := video_filename folder_name video_num in
  there <- call (isfile os filename) ;;
  if negb there then
    try_except
      (_ <- call (print os ["Downloading file "; filename]) ;;
       _ <- call (urlretrieve os (url el) filename) ;;
       call (print os ["Done"]))
      (fun e =>
         if is_instance e "ContentTooShortError" then
           Some (_ <- call (remove os filename) ;;
                 call (print os [("Error while downloading. File " ++ filename
                                  ++ " deleted:")%string]))
         else if is_instance e "KeyboardInterrupt" then
           Some (there <- call (isfile os filename) ;;
                 _ <- (if (there : bool) then call (remove os filename) else ret tt) ;;
                 _ <- call (print os [(newline ++ "Aborted")%string]) ;;
                 exit)
         else None)
  else
    call (print os [("File " ++ filename ++ " already exist")%string]).

(** [for video_num, el in enumerate(url_list_with_q)], from [video_num] on. *)
Fixpoint download_videos (folder_name : string) (video_num : Z)
    (els : list LinkChoice) : M World unit :=
  match els with
  | [] => ret tt
  | el :: rest =>
      _ <- download_video folder_name video_num el ;;
      download_videos folder_name (video_num + 1) rest
  end.

(** One turn of the loop over [video_urls_by_section]. *)
Definition download_week (args : Args) (week_num : Z)
    (video_urls : list StepikVideoUrl) : M World unit :=
  els <- lift (url_list_with_q (quality args) video_urls) ;;
  let folder := folder_name args week_num in
  _ <- create_folder folder ;;
  _ <- call (print os ["Folder_name "; folder]) ;;
  _ <- download_videos folder 0 els ;;
  call (print os ["All steps downloaded"]).

(** [for week_num, video_urls in enumerate(video_urls_by_section, start=1)],
    from [week_num] on. *)
Fixpoint download_weeks (args : Args) (week_num : Z)
    (video_urls_by_section : list (list StepikVideoUrl)) : M World unit :=
  match video_urls_by_section with
  | [] => ret tt
  | video_urls :: rest =>
      _ <- download_week args week_num video_urls ;;
      download_weeks args (week_num + 1) rest
  end.

(** [main], with the parsed arguments and with [json.loads] and [requests],
    the collaborators the dispatcher gets by default. *)
Definition main (fuel : nat) (args : Args)
    (json_loads : string -> World -> result json * World)
    (requests : NetManager World) : M World unit :=
  stepik_dispatcher <- init (client_id args) (client_secret args)
                         Build_HTTPBasicAuth json_loads requests ;;
  video_urls_by_section <-
    get_course_videos_urls_by_section fuel (course_id args) stepik_dispatcher
      (week_id args) ;;
  download_weeks args 1 video_urls_by_section.

End Main.

(** The world after a call, and the exits of a sequence that [try_except]
    and the loops of [main] are described with. *)
Definition after {World A : Type} (c : World -> result A * World) (w : World)
    : World :=
  snd (c w).

(** Two systems that cannot be told apart by joining paths, looking for a
    file or printing; they may differ in what a transfer, a removal or the
    making of a folder does. *)
Definition same_checks {World : Type} (os os' : System World) : Prop :=
  path_join os = path_join os' /\
  isfile os = isfile os' /\
  print os = print os'.

(** *** A file system to test with

    It keeps the folders and the files that exist and a log of what was
    made, fetched, removed and printed; a transfer leaves a file behind even
    when it fails. *)

Module Disk.

Inductive Event : Type :=
| Made (folder : string)
| Fetched (link : json) (file : string)
| Removed (file : string)
| Printed (args : list string).

Record World : Type := {
  requests : Fake.World;
  folders : list string;
  files : list string;
  log : list Event
}.

Definition empty : World :=
  {| requests := 0; folders := []; files := []; log := [] |}.

Definition mem (x : string) (l : list string) : bool := existsb (String.eqb x) l.

Definition logged (e : Event) (w : World) : World :=
  {| requests := requests w; folders := folders w; files := files w;
     log := log w ++ [e] |}.

Definition with_files (fs : list string) (w : World) : World :=
  {| requests := requests w; folders := folders w; files := fs; log := log w |}.

Definition with_folders (ds : list string) (w : World) : World :=
  {| requests := requests w; folders := ds; files := files w; log := log w |}.

Definition with_requests (n : Fake.World) (w : World) : World :=
  {| requests := n; folders := folders w; files := files w; log := log w |}.

(** [locked] makes every [makedirs] fail for want of permission; [failing]
    names the exception a transfer of a link ends with. *)
Definition system (locked : bool) (failing : json -> option string) : System World :=
  {| path_join := fun base parts =>
       fold_left (fun path part => (path ++ "/" ++ part)%string) parts base;
     isdir := fun d w => (Ok (mem d (folders w)), w);
     makedirs := fun d w =>
       if locked then (Raise (ExternalError "PermissionError"), w)
       else (Ok tt, logged (Made d) (with_folders (d :: folders w) w));
     isfile := fun f w => (Ok (mem f (files w)), w);
     remove := fun f w =>
       (Ok tt,
        logged (Removed f)
          (with_files (filter (fun g => negb (String.eqb g f)) (files w)) w));
     urlretrieve := fun link f w =>
       let w' := logged (Fetched link f) (with_files (f :: files w) w) in
       match failing link with
       | Some class => (Raise (ExternalError class), w')
       | None => (Ok tt, w')
       end;
     print := fun args w => (Ok tt, logged (Printed args) w) |}.

Definition reliable : json -> option string := fun _ => None.

(** The transport and the parser of [Fake], on this world. *)
Definition net (n : NetManager Fake.World) : NetManager World :=
  {| post := fun u data auth w =>
       let (r, k) := post n u data auth (requests w) in (r, with_requests k w);
     get := fun u headers params w =>
       let (r, k) := get n u headers params (requests w) in (r, with_requests k w) |}.

Definition parser (p : string -> Fake.World -> result json * Fake.World)
    (text : string) (w : World) : result json * World :=
  let (r, k) := p text (requests w) in (r, with_requests k w).

(** The course of [Course], behind a token endpoint. *)
Definition requests_of_course : NetManager World :=
  net (Fake.net (Fake.ok "token") Course.routes).

Definition loads_of_course : string -> World -> result json * World :=
  parser (Fake.parser (("token", JObj [("access_token", JStr "abc")]) :: Course.bodies)).

Definition args (week : option Z) : Args :=
  {| client_id := "id"; client_secret := "secret"; course_id := 5;
     week_id := week; quality := "720"; output_dir := "out" |}.

End Disk.

(** * Properties *)

Unset Implicit Arguments.

(** ** Running computations *)

Section Running.

Variable World : Type.

Lemma bind_ok {A B} (m : M World A) (k : A -> M World B) w a w' :
  m w = Some (Ok a, w') -> bind m k w = k a w'.
Proof. intros H. unfold bind. now rewrite H. Qed.

Lemma bind_raise {A B} (m : M World A) (k : A -> M World B) w e w' :
  m w = Some (Raise e, w') -> bind m k w = Some (Raise e, w').
Proof. intros H. unfold bind. now rewrite H. Qed.

Lemma bind_out_of_fuel {A B} (m : M World A) (k : A -> M World B) w :
  m w = None -> bind m k w = None.
Proof. intros H. unfold bind. now rewrite H. Qed.

Lemma bind_lift_ok {A B} (r : result A) (k : A -> M World B) w a :
  r = Ok a -> bind (lift r) k w = k a w.
Proof. intros ->. reflexivity. Qed.

End Running.

(** ** The dispatcher *)

Section DispatcherFacts.

Variable World : Type.
Variable self : StepikDispatcher World.

Lemma get_resources_list_unfold fuel api_resource ids page w :
  get_resources_list (S fuel) self api_resource ids page w =
  (response <- resource_request self api_resource ids page ;;
   if (status_code response =? 200)%Z then
     paginated_list <- call (json_parser self (text response)) ;;
     resources_list <- lift (getitem_str paginated_list api_resource) ;;
     meta <- lift (getitem_str paginated_list "meta") ;;
     has_next <- lift (getitem_str meta "has_next") ;;
     if truthy has_next then
       more <- get_resources_list fuel self api_resource ids (page + 1) ;;
       lift (iadd resources_list more)
     else
       ret resources_list
   else if (status_code response =? 431)%Z then
     n <- lift (len ids) ;;
     first_half <- lift (slice_to ids (n / 2)) ;;
     left <- get_resources_list fuel self api_resource first_half 1 ;;
     second_half <- lift (slice_from ids (n / 2)) ;;
     right <- get_resources_list fuel self api_resource second_half 1 ;;
     lift (add left right)
   else
     raise (ResourceAcquisitionFailure
              (acquisition_message api_resource (status_code response)))) w.
Proof. reflexivity. Qed.

(** More fuel does not change an outcome. *)
Lemma get_resources_list_fuel fuel : forall fuel' api_resource ids page w out,
  fuel <= fuel' ->
  get_resources_list fuel self api_resource ids page w = Some out ->
  get_resources_list fuel' self api_resource ids page w = Some out.
Proof.
  induction fuel as [| fuel IH]; intros fuel' r ids page w out Hle H.
  - discriminate.
  - destruct fuel' as [| fuel']; [lia |].
    assert (Hle' : fuel <= fuel') by lia.
    rewrite get_resources_list_unfold in *.
    unfold bind in *.
    destruct (resource_request self r ids page w) as [[[resp | e] w1] |];
      [| exact H | exact H].
    destruct (status_code resp =? 200)%Z.
    + unfold call, lift in *.
      destruct (json_parser self (text resp) w1) as [[body | e] w2]; [| exact H].
      destruct (getitem_str body r) as [resources | e]; [| exact H].
      destruct (getitem_str body "meta") as [meta | e]; [| exact H].
      destruct (getitem_str meta "has_next") as [flag | e]; [| exact H].
      destruct (truthy flag); [| exact H].
      destruct (get_resources_list fuel self r ids (page + 1) w2)
        as [out1 |] eqn:E; [| discriminate].
      now rewrite (IH _ _ _ _ _ _ Hle' E).
    + destruct (status_code resp =? 431)%Z; [| exact H].
      unfold lift in *.
      destruct (len ids) as [n | e]; [| exact H].
      destruct (slice_to ids (n / 2)) as [first_half | e]; [| exact H].
      destruct (get_resources_list fuel self r first_half 1 w1)
        as [out1 |] eqn:E1; [| discriminate].
      rewrite (IH _ _ _ _ _ _ Hle' E1).
      destruct out1 as [[left | e] w2]; [| exact H].
      destruct (slice_from ids (n / 2)) as [second_half | e]; [| exact H].
      destruct (get_resources_list fuel self r second_half 1 w2)
        as [out2 |] eqn:E2; [| discriminate].
      now rewrite (IH _ _ _ _ _ _ Hle' E2).
Qed.

(** The answer has status 200 and announces a next page: the same ids are
    requested on the next page and the outcome is appended to this page. *)
Lemma get_resources_list_next api_resource ids page w resources w1 fuel :
  page_served self api_resource ids page w resources true w1 ->
  get_resources_list (S fuel) self api_resource ids page w =
  (more <- get_resources_list fuel self api_resource ids (page + 1) ;;
   lift (iadd resources more)) w1.
Proof.
  intros (resp & w0 & body & meta & flag & Hreq & Hst & Hparse & Hres & Hmeta & Hflag & Hnext).
  rewrite get_resources_list_unfold.
  erewrite bind_ok by exact Hreq. rewrite Hst. cbn [Z.eqb Pos.eqb].
  unfold call at 1. unfold bind at 1. rewrite Hparse.
  erewrite !bind_lift_ok by eassumption.
  now rewrite Hnext.
Qed.

(** The answer has status 200 and announces no next page. *)
Lemma get_resources_list_last api_resource ids page w resources w1 fuel :
  page_served self api_resource ids page w resources false w1 ->
  get_resources_list (S fuel) self api_resource ids page w = Some (Ok resources, w1).
Proof.
  intros (resp & w0 & body & meta & flag & Hreq & Hst & Hparse & Hres & Hmeta & Hflag & Hnext).
  rewrite get_resources_list_unfold.
  erewrite bind_ok by exact Hreq. rewrite Hst. cbn [Z.eqb Pos.eqb].
  unfold call at 1. unfold bind at 1. rewrite Hparse.
  erewrite !bind_lift_ok by eassumption.
  now rewrite Hnext.
Qed.

(** The answer has status 431: both halves are requested from page 1. *)
Lemma get_resources_list_split api_resource ids page w resp w1 fuel :
  resource_request self api_resource (JArr ids) page w = Some (Ok resp, w1) ->
  status_code resp = 431%Z ->
  get_resources_list (S fuel) self api_resource (JArr ids) page w =
  (left <- get_resources_list fuel self api_resource
             (JArr (firstn (length ids / 2) ids)) 1 ;;
   right <- get_resources_list fuel self api_resource
              (JArr (skipn (length ids / 2) ids)) 1 ;;
   lift (add left right)) w1.
Proof.
  intros Hreq Hst.
  rewrite get_resources_list_unfold.
  erewrite bind_ok by exact Hreq. rewrite Hst. reflexivity.
Qed.

(** The answer has any other status. *)
Lemma get_resources_list_refused api_resource ids page w resp w1 fuel :
  resource_request self api_resource ids page w = Some (Ok resp, w1) ->
  status_code resp <> 200%Z ->
  status_code resp <> 431%Z ->
  get_resources_list (S fuel) self api_resource ids page w =
  Some (Raise (ResourceAcquisitionFailure
                 (acquisition_message api_resource (status_code resp))), w1).
Proof.
  intros Hreq H200 H431.
  rewrite get_resources_list_unfold.
  erewrite bind_ok by exact Hreq.
  apply Z.eqb_neq in H200, H431. now rewrite H200, H431.
Qed.

(** An exception of the request for the next page is the exception of the
    call. *)
Lemma get_resources_list_next_raises api_resource ids page w resources w1 fuel e w' :
  page_served self api_resource ids page w resources true w1 ->
  get_resources_list fuel self api_resource ids (page + 1) w1 = Some (Raise e, w') ->
  get_resources_list (S fuel) self api_resource ids page w = Some (Raise e, w').
Proof.
  intros Hpage Hnext.
  erewrite get_resources_list_next by exact Hpage.
  now apply bind_raise.
Qed.

(** An exception of either half is the exception of the call. *)
Lemma get_resources_list_half_raises api_resource ids page w resp w1 fuel e w' :
  resource_request self api_resource (JArr ids) page w = Some (Ok resp, w1) ->
  status_code resp = 431%Z ->
  get_resources_list fuel self api_resource
    (JArr (firstn (length ids / 2) ids)) 1 w1 = Some (Raise e, w') \/
  (exists left w2,
     get_resources_list fuel self api_resource
       (JArr (firstn (length ids / 2) ids)) 1 w1 = Some (Ok left, w2) /\
     get_resources_list fuel self api_resource
       (JArr (skipn (length ids / 2) ids)) 1 w2 = Some (Raise e, w')) ->
  get_resources_list (S fuel) self api_resource (JArr ids) page w = Some (Raise e, w').
Proof.
  intros Hreq Hst Hhalf.
  erewrite get_resources_list_split by eassumption.
  destruct Hhalf as [Hleft | (left & w2 & Hleft & Hright)].
  - now apply bind_raise.
  - erewrite bind_ok by exact Hleft. now apply bind_raise.
Qed.

(** Pages served one after the other are returned in one list. *)
Lemma get_resources_list_pages api_resource ids pages :
  forall page w w' fuel,
    pages_served self api_resource ids page w pages w' ->
    length pages <= fuel ->
    get_resources_list fuel self api_resource ids page w
      = Some (Ok (JArr (concat pages)), w').
Proof.
  induction pages as [| items rest IH]; intros page w w' fuel Hserved Hfuel.
  - destruct Hserved.
  - destruct fuel as [| fuel]; [cbn in Hfuel; lia |].
    cbn [length] in Hfuel.
    destruct rest as [| next rest].
    + cbn in Hserved. erewrite get_resources_list_last by exact Hserved.
      cbn. now rewrite app_nil_r.
    + destruct Hserved as (w1 & Hpage & Hrest).
      erewrite get_resources_list_next by exact Hpage.
      erewrite bind_ok by (apply IH; [exact Hrest | lia]).
      reflexivity.
Qed.

End DispatcherFacts.

Section DispatcherClaims.

Variable World : Type.
Variable self : StepikDispatcher World.

(** C3.  When the request of [get_resources_list] is answered with status
    200 and the pagination flag of the body is true, the call fetches page
    + 1 for the same ids and appends the outcome after the resources of this
    page.  When the server serves further pages from there, every one but
    the last with a true flag, the call returns the items of all the pages,
    concatenated in page order; three pages with flags true, true, false are
    the case of a [rest] of two pages. *)
Theorem get_resources_list_pagination api_resource ids page w resources w1 :
  page_served self api_resource ids page w resources true w1 ->
  (forall fuel,
     get_resources_list (S fuel) self api_resource ids page w =
     (more <- get_resources_list fuel self api_resource ids (page + 1) ;;
      lift (iadd resources more)) w1) /\
  (forall items rest w' fuel,
     resources = JArr items ->
     pages_served self api_resource ids (page + 1) w1 rest w' ->
     length rest < fuel ->
     get_resources_list fuel self api_resource ids page w =
     Some (Ok (JArr (items ++ concat rest)), w')).
Proof.
  intros Hpage. split.
  - intros fuel. now apply get_resources_list_next.
  - intros items rest w' fuel -> Hrest Hfuel.
    apply (get_resources_list_pages _ self api_resource ids (items :: rest)).
    + destruct rest as [| next rest]; [destruct Hrest |].
      exists w1. split; assumption.
    + cbn [length]. lia.
Qed.

(** The results of the atoms of a nest of splits, concatenated from left
    to right, are the result of the whole batch. *)
Lemma fetched_concat fuel api_resource t page w results w' :
  fetched self fuel api_resource t page w results w' ->
  get_resources_list (fuel + depth t) self api_resource (JArr (ids_of t)) page w
    = Some (Ok (JArr (concat results)), w').
Proof.
  induction 1 as [ids page w items w' Hatom
                 | l r page w resp w1 left w2 right w3 Hreq Hst Hhalf Hl IHl Hr IHr].
  - cbn [depth ids_of concat]. rewrite app_nil_r.
    eapply get_resources_list_fuel; [| exact Hatom]. lia.
  - cbn [depth ids_of]. rewrite Nat.add_succ_r.
    erewrite get_resources_list_split by eassumption.
    rewrite <- Hhalf.
    rewrite firstn_app, Nat.sub_diag, firstn_all, firstn_O, app_nil_r.
    rewrite skipn_app, Nat.sub_diag, skipn_all, skipn_O. cbn [app].
    erewrite bind_ok
      by (eapply get_resources_list_fuel; [| exact IHl]; lia).
    erewrite bind_ok
      by (eapply get_resources_list_fuel; [| exact IHr]; lia).
    cbn. now rewrite concat_app.
Qed.

(** C1.  When the request for a list of ids is answered with status 431,
    [get_resources_list] fetches the first [len(ids) // 2] ids and the
    remaining ids, each from page 1, and returns the result of the first
    half followed by the result of the second half.  However the splits
    nest below, the result is the concatenation, from left to right, of the
    results of the batches that were fetched without a further split. *)
Theorem get_resources_list_split_concat api_resource ids page w resp w1 :
  resource_request self api_resource (JArr ids) page w = Some (Ok resp, w1) ->
  status_code resp = 431%Z ->
  (forall fuel,
     get_resources_list (S fuel) self api_resource (JArr ids) page w =
     (left <- get_resources_list fuel self api_resource
                (JArr (firstn (length ids / 2) ids)) 1 ;;
      right <- get_resources_list fuel self api_resource
                 (JArr (skipn (length ids / 2) ids)) 1 ;;
      lift (add left right)) w1) /\
  (forall fuel l r left w2 right w3,
     ids_of l = firstn (length ids / 2) ids ->
     ids_of r = skipn (length ids / 2) ids ->
     fetched self fuel api_resource l 1 w1 left w2 ->
     fetched self fuel api_resource r 1 w2 right w3 ->
     get_resources_list (fuel + depth (Split l r)) self api_resource
       (JArr ids) page w
     = Some (Ok (JArr (concat left ++ concat right)), w3)).
Proof.
  intros Hreq Hst. split.
  - intros fuel. now apply get_resources_list_split with (resp := resp).
  - intros fuel l r left w2 right w3 Hl Hr Hleft Hright.
    assert (Hids : ids_of l ++ ids_of r = ids)
      by (rewrite Hl, Hr; apply firstn_skipn).
    rewrite <- concat_app.
    rewrite <- Hids in Hreq. rewrite <- Hids.
    apply (fetched_concat fuel api_resource (Split l r)).
    eapply fetched_split; [exact Hreq | exact Hst | | exact Hleft | exact Hright].
    rewrite Hids, Hl. apply firstn_length_le.
    apply Nat.Div0.div_le_upper_bound. lia.
Qed.

(** The request itself always comes back, with an answer or an exception. *)
Lemma resource_request_returns api_resource ids page w :
  exists out, resource_request self api_resource ids page w = Some out.
Proof.
  unfold resource_request, authorized_get, bind, lift, call.
  destruct (bearer (token self)); eauto.
Qed.

(** Cutting a batch of two ids or more at half its length leaves two
    batches that are not empty and are shorter than the batch. *)
Lemma halves_shrink (ids : list json) :
  2 <= length ids ->
  0 < length (firstn (length ids / 2) ids) < length ids /\
  0 < length (skipn (length ids / 2) ids) < length ids.
Proof.
  intros Hlen.
  assert (Hlo : 1 <= length ids / 2)
    by (apply Nat.div_le_lower_bound; lia).
  assert (Hhi : length ids / 2 < length ids)
    by (apply Nat.div_lt; lia).
  rewrite firstn_length_le by lia. rewrite length_skipn. lia.
Qed.

(** One call returns when the calls it makes return. *)
Lemma get_resources_list_step_returns api_resource ids page w :
  (forall resources w1,
     page_served self api_resource (JArr ids) page w resources true w1 ->
     terminates
       (fun fuel => get_resources_list fuel self api_resource (JArr ids) (page + 1))
       w1) ->
  (forall resp w1,
     resource_request self api_resource (JArr ids) page w = Some (Ok resp, w1) ->
     status_code resp = 431%Z ->
     forall w',
       terminates
         (fun fuel => get_resources_list fuel self api_resource
                        (JArr (firstn (length ids / 2) ids)) 1) w' /\
       terminates
         (fun fuel => get_resources_list fuel self api_resource
                        (JArr (skipn (length ids / 2) ids)) 1) w') ->
  terminates
    (fun fuel => get_resources_list fuel self api_resource (JArr ids) page) w.
Proof.
  intros Hnext Hsplit. unfold terminates in *.
  destruct (resource_request_returns api_resource (JArr ids) page w)
    as [[[resp | e] w1] Hreq].
  2: { exists 1. rewrite get_resources_list_unfold.
       erewrite bind_raise by exact Hreq. eauto. }
  destruct (Z.eq_dec (status_code resp) 200) as [H200 | H200].
  - destruct (json_parser self (text resp) w1) as [[body | e] w2] eqn:Hparse.
    2: { exists 1. rewrite get_resources_list_unfold.
         erewrite bind_ok by exact Hreq. rewrite H200. cbn [Z.eqb Pos.eqb].
         unfold call, bind. rewrite Hparse. eauto. }
    destruct (getitem_str body api_resource) as [resources | e] eqn:Hres.
    2: { exists 1. rewrite get_resources_list_unfold.
         erewrite bind_ok by exact Hreq. rewrite H200. cbn [Z.eqb Pos.eqb].
         unfold call, lift, bind. rewrite Hparse, Hres. eauto. }
    destruct (getitem_str body "meta") as [meta | e] eqn:Hmeta.
    2: { exists 1. rewrite get_resources_list_unfold.
         erewrite bind_ok by exact Hreq. rewrite H200. cbn [Z.eqb Pos.eqb].
         unfold call, lift, bind. rewrite Hparse, Hres, Hmeta. eauto. }
    destruct (getitem_str meta "has_next") as [flag | e] eqn:Hflag.
    2: { exists 1. rewrite get_resources_list_unfold.
         erewrite bind_ok by exact Hreq. rewrite H200. cbn [Z.eqb Pos.eqb].
         unfold call, lift, bind. rewrite Hparse, Hres, Hmeta, Hflag. eauto. }
    assert (Hpage : page_served self api_resource (JArr ids) page w
                      resources (truthy flag) w2).
    { exists resp, w1, body, meta, flag. repeat split; assumption. }
    destruct (truthy flag) eqn:Htruthy.
    + destruct (Hnext _ _ Hpage) as (fuel & out & w3 & Hrun).
      exists (S fuel).
      erewrite get_resources_list_next by exact Hpage.
      unfold bind. rewrite Hrun. destruct out; unfold lift; eauto.
    + exists 1. erewrite get_resources_list_last by exact Hpage. eauto.
  - destruct (Z.eq_dec (status_code resp) 431) as [H431 | H431].
    + destruct (Hsplit _ _ Hreq H431 w1) as [(fl & outl & w2 & Hl) _].
      destruct outl as [left | e].
      2: { exists (S fl). erewrite get_resources_list_split by eassumption.
           erewrite bind_raise by exact Hl. eauto. }
      destruct (Hsplit _ _ Hreq H431 w2) as [_ (fr & outr & w3 & Hr)].
      exists (S (Nat.max fl fr)).
      erewrite get_resources_list_split by eassumption.
      erewrite bind_ok
        by (eapply get_resources_list_fuel; [| exact Hl]; lia).
      unfold bind.
      erewrite get_resources_list_fuel; [| | exact Hr]; [| lia].
      destruct outr; unfold lift; eauto.
    + exists 1. erewrite get_resources_list_refused by eassumption. eauto.
Qed.

(** C2.  The recursion on the halves of a batch ends for every list of
    ids.  The base case is the one the claim names, no batch of one id is
    answered with 431; 431 being the answer to a list that is too long, the
    empty batch is not answered with it either; and the walk over the pages
    of each batch ends.  Then [get_resources_list] returns or raises for
    every list of ids, and whenever a batch is answered with 431 it has two
    ids or more and its two halves are not empty and strictly shorter. *)
Theorem get_resources_list_terminates api_resource :
  single_id_never_431 self api_resource ->
  empty_never_431 self api_resource ->
  pagination_ends self api_resource ->
  forall ids page w,
    terminates
      (fun fuel => get_resources_list fuel self api_resource (JArr ids) page) w /\
    (forall resp w1,
       resource_request self api_resource (JArr ids) page w = Some (Ok resp, w1) ->
       status_code resp = 431%Z ->
       0 < length (firstn (length ids / 2) ids) < length ids /\
       0 < length (skipn (length ids / 2) ids) < length ids).
Proof.
  intros Hsingle Hempty Hpages.
  assert (Hshrink : forall ids page w resp w1,
            resource_request self api_resource (JArr ids) page w = Some (Ok resp, w1) ->
            status_code resp = 431%Z ->
            0 < length (firstn (length ids / 2) ids) < length ids /\
            0 < length (skipn (length ids / 2) ids) < length ids).
  { intros ids page w resp w1 Hreq H431.
    apply halves_shrink.
    destruct ids as [| a [| b rest]]; [| | cbn; lia]; exfalso.
    - exact (Hempty _ _ _ _ Hreq H431).
    - exact (Hsingle _ _ _ _ _ Hreq H431). }
  assert (Hmain : forall n ids,
            length ids = n ->
            forall page w,
              terminates
                (fun fuel => get_resources_list fuel self api_resource (JArr ids) page)
                w).
  { induction n as [n IHn] using lt_wf_ind. intros ids Hlen page w.
    induction (Hpages (JArr ids) page w) as [page w _ IHwalk].
    apply get_resources_list_step_returns.
    - intros resources w1 Hpage. exact (IHwalk resources w1 Hpage).
    - intros resp w1 Hreq H431 w'.
      destruct (Hshrink _ _ _ _ _ Hreq H431) as [Hl Hr].
      split.
      + apply (IHn (length (firstn (length ids / 2) ids))); [lia | reflexivity].
      + apply (IHn (length (skipn (length ids / 2) ids))); [lia | reflexivity]. }
  intros ids page w. split.
  - now apply (Hmain (length ids)).
  - intros resp w1. now apply Hshrink.
Qed.

End DispatcherClaims.

(** ** Authentication *)

Section Authentication.

Variable World : Type.

(** C8.  Once the token endpoint has answered: with status 200 and a body
    that parses to a dictionary with an [access_token], the dispatcher is
    built with that token; with status 401 the constructor raises
    [WrongCredentials]; with any other status it raises
    [AuthenticationFailure] with a message that gives the status code. *)
Theorem init_outcomes client_id client_secret auth_manager parser
    (net : NetManager World) w resp w1 :
  post net "https://stepik.org/oauth2/token/"
    [("grant_type", "client_credentials")]
    (auth_manager client_id client_secret) w = (Ok resp, w1) ->
  (status_code resp = 200%Z ->
   forall body w2 access_token,
     parser (text resp) w1 = (Ok body, w2) ->
     getitem_str body "access_token" = Ok access_token ->
     init client_id client_secret auth_manager parser net w =
     Some (Ok {| json_parser := parser; net_manager := net;
                 token := access_token |}, w2)) /\
  (status_code resp = 401%Z ->
   init client_id client_secret auth_manager parser net w =
   Some (Raise (WrongCredentials "Wrong client_id or client_secret"), w1)) /\
  (status_code resp <> 200%Z ->
   status_code resp <> 401%Z ->
   init client_id client_secret auth_manager parser net w =
   Some (Raise (AuthenticationFailure
                  ("Server responded with code " ++ str (status_code resp))), w1)).
Proof.
  intros Hpost. unfold init, call, bind. rewrite Hpost.
  repeat split.
  - intros H200 body w2 access_token Hparse Htoken.
    rewrite H200. cbn [Z.eqb Pos.eqb]. rewrite Hparse.
    unfold lift. now rewrite Htoken.
  - intros H401. now rewrite H401.
  - intros H200 H401. apply Z.eqb_neq in H200, H401. now rewrite H200, H401.
Qed.

End Authentication.

(** ** The hierarchy resolver *)

Section ResolverFacts.

Variable World : Type.
Variable self : StepikDispatcher World.

Lemma range_nil lo hi : (hi <= lo)%Z -> range lo hi = [].
Proof.
  intros H. unfold range. replace (Z.to_nat (hi - lo)) with 0 by lia. reflexivity.
Qed.

Lemma range_cons lo hi : (lo < hi)%Z -> range lo hi = lo :: range (lo + 1) hi.
Proof.
  intros H. unfold range.
  replace (Z.to_nat (hi - lo)) with (S (Z.to_nat (hi - (lo + 1)))) by lia.
  cbn [seq map]. f_equal; [lia |].
  rewrite <- seq_shift, map_map. apply map_ext. intros i. lia.
Qed.

Lemma range_split lo mid hi :
  (lo <= mid <= hi)%Z -> range lo hi = range lo mid ++ range mid hi.
Proof.
  intros H.
  remember (Z.to_nat (mid - lo)) as k eqn:Hk.
  revert lo H Hk. induction k as [| k IH]; intros lo H Hk.
  - replace mid with lo by lia. now rewrite (range_nil lo lo) by lia.
  - rewrite (range_cons lo hi), (range_cons lo mid) by lia.
    cbn [app]. f_equal. apply IH; lia.
Qed.

Lemma range_In x lo hi : In x (range lo hi) -> (lo <= x < hi)%Z.
Proof.
  unfold range. rewrite in_map_iff. intros (i & <- & Hi).
  apply in_seq in Hi. lia.
Qed.

Lemma range_length lo hi : length (range lo hi) = Z.to_nat (hi - lo).
Proof. unfold range. now rewrite length_map, length_seq. Qed.

(** The loop over two lists of weeks is the loop over the first followed by
    the loop over the second. *)
Lemma weeks_loop_app fuel only all_unit_ids nums nums' :
  forall done w,
    weeks_loop fuel self only all_unit_ids (nums ++ nums') done w =
    (done' <- weeks_loop fuel self only all_unit_ids nums done ;;
     weeks_loop fuel self only all_unit_ids nums' done') w.
Proof.
  induction nums as [| week_num rest IH]; intros done w.
  - reflexivity.
  - cbn [app weeks_loop].
    destruct (skipped only week_num); [apply IH |].
    unfold bind, lift in IH |- *.
    destruct (index all_unit_ids (week_num - 1)) as [unit_ids | e]; [| reflexivity].
    destruct (week_videos fuel self unit_ids w) as [[[videos | e] w1] |];
      [apply IH | reflexivity | reflexivity].
Qed.

(** A request of a week that raises makes the week raise. *)
Lemma week_videos_fetch_fails fuel unit_ids w e w' :
  week_fetch_fails self fuel unit_ids w e w' ->
  week_videos fuel self unit_ids w = Some (Raise e, w').
Proof.
  unfold week_videos.
  intros [Hunits | lesson_ids w1 Hlessons Hfetch
          | lesson_ids w1 step_lists w2 step_ids Hlessons Hsteps Hflat Hfetch].
  - apply bind_raise. unfold get_list_of_lessons_ids. now apply bind_raise.
  - erewrite bind_ok by exact Hlessons.
    apply bind_raise. unfold get_lists_of_step_ids. now apply bind_raise.
  - erewrite bind_ok by exact Hlessons.
    erewrite bind_ok by exact Hsteps.
    erewrite bind_lift_ok by exact Hflat.
    now apply bind_raise.
Qed.

End ResolverFacts.

Section ResolverClaims.

Variable World : Type.
Variable self : StepikDispatcher World.

Lemma resolution_after_sections fuel course_id only w all_unit_ids n w2 :
  sections_listed self fuel course_id w all_unit_ids n w2 ->
  get_course_videos_urls_by_section fuel course_id self only w =
  weeks_loop fuel self only all_unit_ids (range 1 (Z.of_nat n + 1)) [] w2.
Proof.
  intros (week_ids & w1 & Hids & Hunits & Hlen).
  unfold get_course_videos_urls_by_section.
  erewrite bind_ok by exact Hids.
  erewrite bind_ok by exact Hunits.
  erewrite bind_lift_ok by exact Hlen.
  reflexivity.
Qed.

(** A request that raises during the resolution makes the resolution raise
    the same exception; the lists of the weeks resolved before are lost. *)
Lemma resolution_aborts fuel course_id only w e w' :
  resolution_fetch_fails self fuel course_id only w e w' ->
  get_course_videos_urls_by_section fuel course_id self only w = Some (Raise e, w').
Proof.
  intros [week_ids w1 Hids Hfetch
         | all_unit_ids n w2 week_num done w3 unit_ids
             Hlisted Hrange Hskip Hloop Hindex Hfail].
  - unfold get_course_videos_urls_by_section.
    erewrite bind_ok by exact Hids.
    apply bind_raise. unfold get_lists_of_units. now apply bind_raise.
  - erewrite resolution_after_sections by exact Hlisted.
    rewrite (range_split 1 week_num (Z.of_nat n + 1)) by lia.
    rewrite weeks_loop_app.
    erewrite bind_ok by exact Hloop.
    rewrite range_cons by lia. cbn [weeks_loop]. rewrite Hskip.
    erewrite bind_lift_ok by exact Hindex.
    apply bind_raise. now apply week_videos_fetch_fails.
Qed.

(** C7.  When a request of [get_resources_list] is answered with a status
    other than 200 and 431, the call raises [ResourceAcquisitionFailure]
    with a message that gives the resource type and the status code; and
    when a dispatcher request made during the resolution of a course raises
    that exception, the resolution raises it too and returns no list, not
    even for the weeks resolved before. *)
Theorem acquisition_failure_aborts api_resource ids page w resp w1 :
  resource_request self api_resource ids page w = Some (Ok resp, w1) ->
  status_code resp <> 200%Z ->
  status_code resp <> 431%Z ->
  let failure :=
    ResourceAcquisitionFailure
      ("Cannot load resources from Stepik.org (" ++ api_resource
       ++ "): server responded with " ++ str (status_code resp)) in
  (forall fuel,
     get_resources_list (S fuel) self api_resource ids page w
       = Some (Raise failure, w1)) /\
  (forall fuel course_id only w0 w',
     resolution_fetch_fails self fuel course_id only w0 failure w' ->
     get_course_videos_urls_by_section fuel course_id self only w0
       = Some (Raise failure, w')).
Proof.
  intros Hreq H200 H431 failure. split.
  - intros fuel. now apply get_resources_list_refused.
  - intros fuel course_id only w0 w'. apply resolution_aborts.
Qed.

Lemma runs_each_length {A B} (f : A -> M World B) xs w ys w' :
  runs_each f xs w ys w' -> length ys = length xs.
Proof. induction 1; cbn; congruence. Qed.

Lemma resolve_week_inv fuel all_unit_ids week_num w videos w' :
  resolve_week self fuel all_unit_ids week_num w = Some (Ok videos, w') ->
  exists unit_ids,
    index all_unit_ids (week_num - 1) = Ok unit_ids /\
    week_videos fuel self unit_ids w = Some (Ok videos, w').
Proof.
  unfold resolve_week, bind, lift.
  destruct (index all_unit_ids (week_num - 1)) as [unit_ids | e]; [eauto | discriminate].
Qed.

(** Without a filter the loop runs every week in turn and appends its list. *)
Lemma weeks_loop_all fuel all_unit_ids nums w weeks w' :
  runs_each (resolve_week self fuel all_unit_ids) nums w weeks w' ->
  forall done,
    weeks_loop fuel self None all_unit_ids nums done w = Some (Ok (done ++ weeks), w').
Proof.
  induction 1 as [w | week_num rest videos weeks w w1 w2 Hweek Hrest IH]; intros done.
  - cbn. now rewrite app_nil_r.
  - apply resolve_week_inv in Hweek as (unit_ids & Hindex & Hvideos).
    cbn [weeks_loop skipped].
    erewrite bind_lift_ok by exact Hindex.
    erewrite bind_ok by exact Hvideos.
    rewrite IH. now rewrite <- app_assoc.
Qed.

Lemma weeks_loop_all_inv fuel all_unit_ids nums :
  forall done w out w',
    weeks_loop fuel self None all_unit_ids nums done w = Some (Ok out, w') ->
    exists weeks,
      out = done ++ weeks /\
      runs_each (resolve_week self fuel all_unit_ids) nums w weeks w'.
Proof.
  induction nums as [| week_num rest IH]; intros done w out w' Hloop.
  - cbn in Hloop. injection Hloop as <- <-.
    exists []. split; [now rewrite app_nil_r | constructor].
  - cbn [weeks_loop skipped] in Hloop.
    unfold bind at 1 in Hloop. unfold lift in Hloop.
    destruct (index all_unit_ids (week_num - 1)) as [unit_ids | e] eqn:Hindex;
      [| discriminate].
    unfold bind at 1 in Hloop.
    destruct (week_videos fuel self unit_ids w) as [[[videos | e] w1] |] eqn:Hvideos;
      try discriminate.
    apply IH in Hloop as (weeks & -> & Hrest).
    exists (videos :: weeks). split; [now rewrite <- app_assoc |].
    econstructor; [| exact Hrest].
    unfold resolve_week. erewrite bind_lift_ok by exact Hindex. exact Hvideos.
Qed.

(** C4.  Once the course has listed its [n] sections and their units,
    resolving without a week filter succeeds exactly when the weeks 1 to
    [n], resolved one after the other, all succeed, and then it returns
    their video lists in that order: [n] lists, the list of a week without
    videos being the empty list that [resolve_week] gives for it. *)
Theorem all_weeks_listed fuel course_id w all_unit_ids n w2 :
  sections_listed self fuel course_id w all_unit_ids n w2 ->
  forall weeks w',
    (get_course_videos_urls_by_section fuel course_id self None w
       = Some (Ok weeks, w') <->
     runs_each (resolve_week self fuel all_unit_ids)
       (range 1 (Z.of_nat n + 1)) w2 weeks w') /\
    (get_course_videos_urls_by_section fuel course_id self None w
       = Some (Ok weeks, w') ->
     length weeks = n).
Proof.
  intros Hlisted weeks w'.
  erewrite resolution_after_sections by exact Hlisted.
  assert (Hinv : weeks_loop fuel self None all_unit_ids
                   (range 1 (Z.of_nat n + 1)) [] w2 = Some (Ok weeks, w') ->
                 runs_each (resolve_week self fuel all_unit_ids)
                   (range 1 (Z.of_nat n + 1)) w2 weeks w').
  { intros Hloop. apply weeks_loop_all_inv in Hloop as (weeks' & -> & Hruns).
    exact Hruns. }
  split; [split |].
  - exact Hinv.
  - intros Hruns. now apply (weeks_loop_all _ _ _ _ _ _ Hruns []).
  - intros Hloop. apply Hinv, runs_each_length in Hloop.
    rewrite Hloop, range_length. lia.
Qed.

(** With a filter, the weeks other than the wanted one leave no trace. *)
Lemma weeks_loop_skips fuel wanted all_unit_ids nums done w :
  (forall x, In x nums -> x <> wanted) ->
  weeks_loop fuel self (Some wanted) all_unit_ids nums done w = Some (Ok done, w).
Proof.
  induction nums as [| week_num rest IH]; intros Hother; [reflexivity |].
  cbn [weeks_loop skipped].
  assert (Hne : week_num <> wanted) by (apply Hother; now left).
  apply Z.eqb_neq in Hne. rewrite Hne. cbn [negb].
  apply IH. intros x Hx. apply Hother. now right.
Qed.

(** C10.  Once the course has listed its [n] sections and their units,
    resolving with the week filter [wanted] resolves that week alone and
    returns the one-element list of its videos when [1 <= wanted <= n], and
    returns the empty list otherwise; the other weeks have no entry, so the
    wanted week is the first element whatever its number. *)
Theorem only_wanted_week fuel course_id wanted w all_unit_ids n w2 :
  sections_listed self fuel course_id w all_unit_ids n w2 ->
  get_course_videos_urls_by_section fuel course_id self (Some wanted) w =
  (if (1 <=? wanted)%Z && (wanted <=? Z.of_nat n)%Z then
     videos <- resolve_week self fuel all_unit_ids wanted ;;
     ret [videos]
   else ret []) w2.
Proof.
  intros Hlisted.
  erewrite resolution_after_sections by exact Hlisted.
  destruct ((1 <=? wanted)%Z && (wanted <=? Z.of_nat n)%Z) eqn:Hin.
  - apply andb_true_iff in Hin as [Hlo Hhi].
    apply Z.leb_le in Hlo, Hhi.
    rewrite (range_split 1 wanted (Z.of_nat n + 1)) by lia.
    rewrite weeks_loop_app.
    erewrite bind_ok
      by (apply weeks_loop_skips; intros x Hx; apply range_In in Hx; lia).
    rewrite range_cons by lia. cbn [weeks_loop skipped].
    rewrite Z.eqb_refl. cbn [negb app].
    unfold resolve_week, bind, lift.
    destruct (index all_unit_ids (wanted - 1)) as [unit_ids | e]; [| reflexivity].
    destruct (week_videos fuel self unit_ids w2) as [[[videos | e] w3] |];
      [| reflexivity | reflexivity].
    apply weeks_loop_skips. intros x Hx. apply range_In in Hx. lia.
  - apply weeks_loop_skips. intros x Hx. apply range_In in Hx.
    apply andb_false_iff in Hin as [Hlo | Hhi];
      [apply Z.leb_gt in Hlo | apply Z.leb_gt in Hhi]; lia.
Qed.

End ResolverClaims.

(** ** From steps to videos *)

Lemma only_video_blocks_videos steps out :
  videos_in steps out ->
  rbind (only_video_blocks steps) (mapR video_of_block) = Ok out.
Proof.
  induction 1 as [| step block video rest out Hblock Hvideo Hfalsy Hrest IH
                  | step block video urls rest out Hblock Hvideo Htruthy Hurls Hrest IH].
  - reflexivity.
  - cbn [only_video_blocks]. unfold step_has_video.
    rewrite Hblock. cbn [rbind]. rewrite Hvideo. cbn [rbind].
    now rewrite Hfalsy.
  - cbn [only_video_blocks]. unfold step_has_video.
    rewrite Hblock. cbn [rbind]. rewrite Hvideo. cbn [rbind].
    rewrite Htruthy.
    destruct (only_video_blocks rest) as [blocks | e]; [| discriminate].
    cbn [rbind mapR] in IH |- *.
    unfold video_of_block at 1. rewrite Hvideo. cbn [rbind]. rewrite Hurls.
    cbn [rbind]. now rewrite IH.
Qed.

(** Whenever the two comprehensions succeed, the steps were of the shape
    [videos_in] describes. *)
Lemma extract_videos_inv steps : forall out,
  extract_videos (JArr steps) = Ok out -> videos_in steps out.
Proof.
  unfold extract_videos. cbn [iter rbind].
  induction steps as [| step rest IH]; intros out Hout.
  - cbn in Hout. injection Hout as <-. constructor.
  - cbn [only_video_blocks] in Hout. unfold step_has_video in Hout.
    destruct (getitem_str step "block") as [block | e] eqn:Hblock; [| discriminate].
    cbn [rbind] in Hout.
    destruct (getitem_str block "video") as [video | e] eqn:Hvideo; [| discriminate].
    cbn [rbind] in Hout.
    destruct (truthy video) eqn:Htruthy.
    + destruct (only_video_blocks rest) as [blocks | e]; [| discriminate].
      cbn [rbind mapR] in Hout, IH.
      unfold video_of_block at 1 in Hout. rewrite Hvideo in Hout.
      cbn [rbind] in Hout.
      destruct (getitem_str video "urls") as [urls | e] eqn:Hurls; [| discriminate].
      cbn [rbind] in Hout.
      destruct (mapR video_of_block blocks) as [videos | e]; [| discriminate].
      cbn [rbind] in Hout. injection Hout as <-.
      eapply videos_keep; eauto.
    + eapply videos_skip; eauto.
Qed.

(** The week's videos are extracted from the data of its steps. *)
Lemma week_videos_extract {World : Type} (self : StepikDispatcher World)
    fuel unit_ids w all_steps_data w' :
  steps_fetched self fuel unit_ids w all_steps_data w' ->
  week_videos fuel self unit_ids w = Some (extract_videos all_steps_data, w').
Proof.
  intros (lesson_ids & w1 & step_lists & w2 & step_ids
          & Hlessons & Hsteps & Hflat & Hdata).
  unfold week_videos.
  erewrite bind_ok by exact Hlessons.
  erewrite bind_ok by exact Hsteps.
  erewrite bind_lift_ok by exact Hflat.
  erewrite bind_ok by exact Hdata.
  reflexivity.
Qed.

(** C9, as amended.  When every fetched step of a week has a block with a
    video field, the steps whose video is falsy ([None], for one) give
    nothing and raise nothing, and every other step gives the url list of
    its video, in the order of the steps. *)
Theorem week_videos_of_steps {World : Type} (self : StepikDispatcher World)
    fuel unit_ids w steps w' out :
  steps_fetched self fuel unit_ids w (JArr steps) w' ->
  videos_in steps out ->
  week_videos fuel self unit_ids w = Some (Ok out, w').
Proof.
  intros Hfetched Hvideos.
  rewrite (week_videos_extract self _ _ _ _ _ Hfetched).
  do 2 f_equal. exact (only_video_blocks_videos _ _ Hvideos).
Qed.

(** ** Choosing the link of a video *)

Lemma link_matches_record quality link record :
  quality_record link record ->
  link_matches quality link =
  if String.eqb (fst record) quality then Some (JStr (snd record)) else None.
Proof.
  intros (fields & -> & Hquality & Hurl).
  unfold link_matches. now rewrite Hquality, Hurl.
Qed.

Lemma scan_qualities_none quality links records :
  Forall2 quality_record links records ->
  (forall r, In r records -> fst r <> quality) ->
  scan_qualities quality links = JNull.
Proof.
  induction 1 as [| link record links records Hrecord Hrest IH]; intros Hnone.
  - reflexivity.
  - cbn [scan_qualities]. rewrite (link_matches_record quality _ _ Hrecord).
    assert (Hne : fst record <> quality) by (apply Hnone; now left).
    apply String.eqb_neq in Hne. rewrite Hne.
    apply IH. intros r Hr. apply Hnone. now right.
Qed.

Lemma scan_qualities_first quality record after :
  forall before links,
    Forall2 quality_record links (before ++ record :: after) ->
    fst record = quality ->
    (forall r, In r before -> fst r <> quality) ->
    scan_qualities quality links = JStr (snd record).
Proof.
  induction before as [| r before IH]; intros links Hall Hmatch Hbefore;
    inversion Hall as [| link r' links' records' Hrecord Hrest]; subst.
  - cbn [scan_qualities]. rewrite (link_matches_record (fst record) _ _ Hrecord).
    now rewrite String.eqb_refl.
  - cbn [scan_qualities]. rewrite (link_matches_record (fst record) _ _ Hrecord).
    assert (Hne : fst r <> fst record) by (apply Hbefore; now left).
    apply String.eqb_neq in Hne. rewrite Hne.
    apply IH; [exact Hrest | reflexivity |].
    intros r0 Hr0. apply Hbefore. now right.
Qed.

(** C5.  For a list of quality records that is not empty: when a record
    has the requested quality, the first such record gives the link and
    there is no message; when no record has it, the first record of the
    list gives the link and the message names the requested quality. *)
Theorem choose_link_by_quality quality links records :
  records <> [] ->
  Forall2 quality_record links records ->
  (forall before record after,
     records = before ++ record :: after ->
     fst record = quality ->
     (forall r, In r before -> fst r <> quality) ->
     choose_link quality {| available_qualities := JArr links |}
       = Ok {| url := JStr (snd record); msg := None |}) /\
  ((forall r, In r records -> fst r <> quality) ->
   choose_link quality {| available_qualities := JArr links |}
     = Ok {| url := JStr (snd (hd ("", "") records));
             msg := Some ("The requested quality = " ++ quality
                          ++ " is not available!")%string |}).
Proof.
  intros Hne Hall. split.
  - intros before record after -> Hmatch Hbefore.
    unfold choose_link. cbn [available_qualities iter rbind].
    now rewrite (scan_qualities_first quality record after before links Hall Hmatch Hbefore).
  - intros Hnone.
    unfold choose_link. cbn [available_qualities iter rbind].
    rewrite (scan_qualities_none quality links records Hall Hnone).
    destruct Hall as [| link record links records (fields & -> & _ & Hurl) _];
      [contradiction |].
    cbn. now rewrite Hurl.
Qed.

(** C6, as amended.  For a video whose quality list is empty the choice of
    a link raises [IndexError], the fault of the access to the first
    element; when the videos before it in the week all got a link, the
    whole list of links of the week is lost to that exception. *)
Theorem empty_qualities_index_error quality before after :
  (forall video, In video before ->
     exists choice, choose_link quality video = Ok choice) ->
  choose_link quality {| available_qualities := JArr [] |} = Raise IndexError /\
  url_list_with_q quality
    (before ++ {| available_qualities := JArr [] |} :: after) = Raise IndexError.
Proof.
  intros Hbefore. split; [reflexivity |].
  unfold url_list_with_q.
  induction before as [| video before IH]; [reflexivity |].
  cbn [app mapR].
  destruct (Hbefore video (or_introl eq_refl)) as [choice ->]. cbn [rbind].
  rewrite IH; [reflexivity |].
  intros v Hv. apply Hbefore. now right.
Qed.

(** ** The properties at work *)

(** Steps 1, 2, 3 are fetched as [1] and, split again, [2] and [3]. *)
Lemma split_concat_witness :
  get_resources_list 3 (Fake.dispatcher Fake.split_routes Fake.split_bodies)
    "steps" (Fake.nums [1; 2; 3]%Z) 1 0
  = Some (Ok (JArr [Fake.item 1; Fake.item 2; Fake.item 3]), 5).
Proof.
  pose (server := Fake.dispatcher Fake.split_routes Fake.split_bodies).
  refine (proj2 (get_resources_list_split_concat Fake.World server "steps"
                   [JNum 1; JNum 2; JNum 3] 1 0 (Fake.status 431) 1 eq_refl eq_refl)
            1 (Atom [JNum 1]) (Split (Atom [JNum 2]) (Atom [JNum 3]))
            [[Fake.item 1]] 2 ([[Fake.item 2]] ++ [[Fake.item 3]]) 5
            eq_refl eq_refl _ _).
  - apply fetched_atom. reflexivity.
  - apply fetched_split with (resp := Fake.status 431) (w1 := 3) (w2 := 4).
    + reflexivity.
    + reflexivity.
    + reflexivity.
    + apply fetched_atom. reflexivity.
    + apply fetched_atom. reflexivity.
Defined.

(** Three pages, with flags true, true, false. *)
Lemma pagination_witness :
  get_resources_list 3 (Fake.dispatcher Fake.paged_routes Fake.paged_bodies)
    "lessons" (Fake.nums [7]%Z) 1 0
  = Some (Ok (JArr [Fake.item 71; Fake.item 72; Fake.item 73; Fake.item 74]), 3).
Proof.
  pose (server := Fake.dispatcher Fake.paged_routes Fake.paged_bodies).
  refine (proj2 (get_resources_list_pagination Fake.World server "lessons"
                   (Fake.nums [7]%Z) 1 0 (JArr [Fake.item 71; Fake.item 72]) 1 _)
            [Fake.item 71; Fake.item 72] [[Fake.item 73]; [Fake.item 74]] 3 3
            eq_refl _ _).
  - exists (Fake.ok "page 1"), 1,
      (Fake.page_body "lessons" [Fake.item 71; Fake.item 72] true),
      (JObj [("has_next", JBool true)]), (JBool true).
    repeat split; reflexivity.
  - exists 2. split.
    + exists (Fake.ok "page 2"), 2,
        (Fake.page_body "lessons" [Fake.item 73] true),
        (JObj [("has_next", JBool true)]), (JBool true).
      repeat split; reflexivity.
    + exists (Fake.ok "page 3"), 3,
        (Fake.page_body "lessons" [Fake.item 74] false),
        (JObj [("has_next", JBool false)]), (JBool false).
      repeat split; reflexivity.
  - cbn. lia.
Defined.

Lemma fake_request routes bodies api_resource ids page w :
  resource_request (Fake.dispatcher routes bodies) api_resource ids page w =
  Some (Ok (Fake.answer routes ("http://stepik.org/api/" ++ api_resource)
              (Some {| ids_param := ids; page_param := page |})), S w).
Proof. reflexivity. Qed.

Lemma split_server_single :
  single_id_never_431 (Fake.dispatcher Fake.split_routes Fake.split_bodies) "steps".
Proof.
  intros id page w resp w1 Hreq.
  rewrite fake_request in Hreq. injection Hreq as <- _.
  unfold Fake.answer.
  destruct id; cbn -[Z.eqb]; try discriminate.
  rewrite ?andb_false_r. cbn -[Z.eqb].
  repeat (match goal with
          | |- context [if ?b then _ else _] => destruct b; cbn -[Z.eqb]
          end);
    discriminate.
Qed.

Lemma split_server_empty :
  empty_never_431 (Fake.dispatcher Fake.split_routes Fake.split_bodies) "steps".
Proof.
  intros page w resp w1 Hreq.
  rewrite fake_request in Hreq. injection Hreq as <- _. discriminate.
Qed.

Lemma split_server_pagination :
  pagination_ends (Fake.dispatcher Fake.split_routes Fake.split_bodies) "steps".
Proof.
  intros ids page w. constructor.
  intros resources w1
    (resp & w0 & body & meta & flag & Hreq & Hst & Hparse & _ & Hmeta & Hflag & Htrue).
  exfalso.
  rewrite fake_request in Hreq. injection Hreq as <- _.
  unfold Fake.answer in Hst, Hparse.
  destruct (find _ Fake.split_routes) as [route |] eqn:Hfind; [| discriminate Hst].
  apply find_some in Hfind as [Hroute _].
  unfold Fake.split_routes in Hroute. cbn [In] in Hroute.
  destruct Hroute as [<- | [<- | [<- | [<- | [<- | []]]]]];
    cbn [Fake.reply Fake.api Fake.status Fake.ok status_code text] in Hst, Hparse;
    try discriminate Hst;
    cbn in Hparse; injection Hparse as <- _;
    cbn in Hmeta; injection Hmeta as <-;
    cbn in Hflag; injection Hflag as <-; discriminate Htrue.
Qed.

(** On this server every request for steps returns or raises, and the
    batch of three ids, which is answered with 431, is cut into batches of
    one and of two ids. *)
Lemma termination_witness :
  terminates
    (fun fuel =>
       get_resources_list fuel
         (Fake.dispatcher Fake.split_routes Fake.split_bodies)
         "steps" (Fake.nums [1; 2; 3]%Z) 1) 0 /\
  terminates
    (fun fuel =>
       get_resources_list fuel
         (Fake.dispatcher Fake.split_routes Fake.split_bodies)
         "steps" (JArr []) 1) 0 /\
  (0 < length (firstn (3 / 2) [JNum 1; JNum 2; JNum 3]) < 3 /\
   0 < length (skipn (3 / 2) [JNum 1; JNum 2; JNum 3]) < 3).
Proof.
  pose (ends := get_resources_list_terminates Fake.World
                  (Fake.dispatcher Fake.split_routes Fake.split_bodies) "steps"
                  split_server_single split_server_empty split_server_pagination).
  split; [| split].
  - exact (proj1 (ends [JNum 1; JNum 2; JNum 3] 1%Z 0)).
  - exact (proj1 (ends [] 1%Z 0)).
  - exact (proj2 (ends [JNum 1; JNum 2; JNum 3] 1%Z 0) (Fake.status 431) 1
             eq_refl eq_refl).
Defined.

Lemma empty_431_diverges fuel : forall page w,
  get_resources_list fuel Fake.empty_431_dispatcher "steps" (JArr []) page w = None.
Proof.
  induction fuel as [| fuel IH]; intros page w; [reflexivity |].
  rewrite (get_resources_list_split Fake.World Fake.empty_431_dispatcher
             "steps" [] page w (Fake.status 431) (S w) fuel eq_refl eq_refl).
  apply bind_out_of_fuel. apply IH.
Qed.

(** The condition on the empty batch cannot be left out: the code has no
    case of its own for a batch of no or of one id, and on a server that
    answers the empty batch with 431, every batch of one id with 200 and
    never announces a next page, the empty batch is split into two empty
    batches without end. *)
Lemma empty_batch_never_returns :
  single_id_never_431 Fake.empty_431_dispatcher "steps" /\
  pagination_ends Fake.empty_431_dispatcher "steps" /\
  slice_from (JArr []) (0 / 2) = Ok (JArr []) /\
  ~ terminates
      (fun fuel =>
         get_resources_list fuel Fake.empty_431_dispatcher "steps" (JArr []) 1) 0.
Proof.
  split; [| split; [| split; [reflexivity |]]].
  - intros id page w resp w1 Hreq. injection Hreq as <- _. discriminate.
  - intros ids page w. constructor.
    intros resources w'
      (resp & w1 & body & meta & flag & Hreq & Hst & Hparse & _ & Hmeta & Hflag & Htrue).
    exfalso. injection Hreq as <- <-.
    destruct ids as [| | | | [| id ids] |]; try discriminate Hst;
      injection Hparse as <- _;
      injection Hmeta as <-; injection Hflag as <-; discriminate Htrue.
  - intros (fuel & out & w' & Hrun).
    rewrite empty_431_diverges in Hrun. discriminate.
Qed.

(** The course of three weeks, resolved without a filter: the week without
    videos keeps its place as an empty list. *)
Lemma all_weeks_witness :
  get_course_videos_urls_by_section 5 5 Course.server None 0
  = Some (Ok [[Course.video "a"]; []; [Course.video "b"]], 11).
Proof.
  refine (proj2 (proj1 (all_weeks_listed Fake.World Course.server 5 5 0
                          [Fake.nums [100]%Z; Fake.nums [200]%Z; Fake.nums [300]%Z]
                          3 2 _ [[Course.video "a"]; []; [Course.video "b"]] 11)) _).
  - exists (Fake.nums [10; 20; 30]%Z), 1. repeat split; reflexivity.
  - change (range 1 (Z.of_nat 3 + 1)) with [1; 2; 3]%Z.
    apply runs_cons with (w1 := 5); [reflexivity |].
    apply runs_cons with (w1 := 8); [reflexivity |].
    apply runs_cons with (w1 := 11); [reflexivity |].
    apply runs_nil.
Defined.

(** The same course with the filter on week 3, and on a week it has not. *)
Lemma only_wanted_week_witness :
  get_course_videos_urls_by_section 5 5 Course.server (Some 3%Z) 0
    = Some (Ok [[Course.video "b"]], 5) /\
  get_course_videos_urls_by_section 5 5 Course.server (Some 7%Z) 0
    = Some (Ok [], 2).
Proof.
  assert (Hlisted : sections_listed Course.server 5 5 0
                      [Fake.nums [100]%Z; Fake.nums [200]%Z; Fake.nums [300]%Z] 3 2).
  { exists (Fake.nums [10; 20; 30]%Z), 1. repeat split; reflexivity. }
  split.
  - exact (eq_trans (only_wanted_week Fake.World Course.server 5 5 3 0 _ 3 2 Hlisted)
             eq_refl).
  - exact (eq_trans (only_wanted_week Fake.World Course.server 5 5 7 0 _ 3 2 Hlisted)
             eq_refl).
Defined.

(** The steps request of week 2 is answered with status 500: the call
    raises with the resource type and the status in its message, the
    resolution raises the same, and the list of week 1 is not returned. *)
Lemma acquisition_failure_witness :
  get_resources_list 1 Course.broken_server "steps" (Fake.nums [3]%Z) 1 7
  = Some (Raise (ResourceAcquisitionFailure
                   "Cannot load resources from Stepik.org (steps): server responded with 500"),
          8) /\
  get_course_videos_urls_by_section 5 5 Course.broken_server None 0
  = Some (Raise (ResourceAcquisitionFailure
                   "Cannot load resources from Stepik.org (steps): server responded with 500"),
          8).
Proof.
  assert (H200 : status_code (Fake.status 500) <> 200%Z) by (cbn; lia).
  assert (H431 : status_code (Fake.status 500) <> 431%Z) by (cbn; lia).
  pose (aborts := acquisition_failure_aborts Fake.World Course.broken_server "steps"
                    (Fake.nums [3]%Z) 1 7 (Fake.status 500) 8 eq_refl H200 H431).
  split.
  - exact (proj1 aborts 0).
  - refine (proj2 aborts 5 5%Z None 0 8 _).
    apply week_fetch_aborts
      with (all_unit_ids := [Fake.nums [100]%Z; Fake.nums [200]%Z; Fake.nums [300]%Z])
           (n := 3) (w2 := 2) (week_num := 2%Z) (done := [[Course.video "a"]])
           (w3 := 5) (unit_ids := Fake.nums [200]%Z).
    + exists (Fake.nums [10; 20; 30]%Z), 1. repeat split; reflexivity.
    + cbn. lia.
    + reflexivity.
    + reflexivity.
    + reflexivity.
    + apply steps_fetch_fails
        with (lesson_ids := [JNum 2000]) (w1 := 6)
             (step_lists := [Fake.nums [3]%Z]) (w2 := 7) (step_ids := [JNum 3]);
        reflexivity.
Defined.

(** The three answers of the token endpoint. *)
Lemma init_witness :
  (exists d,
     init "id" "secret" Build_HTTPBasicAuth Course.token_parser
       (Course.token_endpoint 200) 0 = Some (Ok d, 1) /\
     token d = JStr "abc") /\
  init "id" "secret" Build_HTTPBasicAuth Course.token_parser
    (Course.token_endpoint 401) 0
    = Some (Raise (WrongCredentials "Wrong client_id or client_secret"), 1) /\
  init "id" "secret" Build_HTTPBasicAuth Course.token_parser
    (Course.token_endpoint 503) 0
    = Some (Raise (AuthenticationFailure "Server responded with code 503"), 1).
Proof.
  pose (outcomes code :=
          init_outcomes Fake.World "id" "secret" Build_HTTPBasicAuth
            Course.token_parser (Course.token_endpoint code) 0
            {| status_code := code; text := "token" |} 1 eq_refl).
  split; [| split].
  - eexists. split.
    + exact (proj1 (outcomes 200%Z) eq_refl _ 1 (JStr "abc") eq_refl eq_refl).
    + reflexivity.
  - exact (proj1 (proj2 (outcomes 401%Z)) eq_refl).
  - refine (proj2 (proj2 (outcomes 503%Z)) _ _); cbn; lia.
Defined.

(** Week 1 of the course: its two steps are fetched, the video step gives
    its url list and the text step, whose video is [None], gives nothing. *)
Lemma week_videos_witness :
  week_videos 5 Course.server (Fake.nums [100]%Z) 2
  = Some (Ok [Course.video "a"], 5).
Proof.
  refine (week_videos_of_steps Course.server 5 (Fake.nums [100]%Z) 2
            [Course.video_step "a"; Course.text_step] 5 [Course.video "a"] _ _).
  - exists [JNum 1000], 3, [Fake.nums [1; 2]%Z], 4, [JNum 1; JNum 2].
    repeat split; reflexivity.
  - eapply videos_keep; try reflexivity.
    eapply videos_skip; try reflexivity.
    apply videos_nil.
Defined.

(** C9, the claim as written, fails: a step whose block has no video field
    is not left out quietly, the test of the field raises [KeyError], and
    the resolution of the course raises with it. *)
Lemma absent_video_raises :
  getitem_str Course.bare_step "block" = Ok (JObj [("name", JStr "text")]) /\
  assoc "video" [("name", JStr "text")] = None /\
  extract_videos (JArr [Course.video_step "a"; Course.bare_step])
    = Raise (KeyError (JStr "video")) /\
  get_course_videos_urls_by_section 5 5 Course.bare_server None 0
    = Some (Raise (KeyError (JStr "video")), 8).
Proof. repeat split. Qed.

(** The list of the example: 360 at A, 720 at B. *)
Lemma choose_link_witness :
  let video :=
    {| available_qualities :=
         JArr [ JObj [("quality", JStr "360"); ("url", JStr "A")];
                JObj [("quality", JStr "720"); ("url", JStr "B")] ] |} in
  choose_link "1080" video
    = Ok {| url := JStr "A";
            msg := Some "The requested quality = 1080 is not available!" |} /\
  choose_link "720" video = Ok {| url := JStr "B"; msg := None |}.
Proof.
  intros video.
  assert (Hrecords :
            Forall2 quality_record
              [ JObj [("quality", JStr "360"); ("url", JStr "A")];
                JObj [("quality", JStr "720"); ("url", JStr "B")] ]
              [("360", "A"); ("720", "B")]).
  { repeat constructor; eexists; repeat split; reflexivity. }
  split.
  - refine (proj2 (choose_link_by_quality "1080" _ [("360", "A"); ("720", "B")]
                     _ Hrecords) _).
    + discriminate.
    + intros r [<- | [<- | []]]; discriminate.
  - refine (proj1 (choose_link_by_quality "720" _ [("360", "A"); ("720", "B")]
                     _ Hrecords) [("360", "A")] ("720", "B") [] eq_refl eq_refl _).
    + discriminate.
    + intros r [<- | []]. discriminate.
Defined.

(** A week whose second video has no qualities. *)
Lemma empty_qualities_witness :
  url_list_with_q "720"
    ([Course.video "a"] ++ Course.no_qualities :: [Course.video "b"])
  = Raise IndexError.
Proof.
  refine (proj2 (empty_qualities_index_error "720" [Course.video "a"]
                   [Course.video "b"] _)).
  intros video [<- | []]. eexists. reflexivity.
Defined.

(** C6, the claim as written, fails: for an empty quality list the choice
    of a link raises [IndexError], a fault of a missing value and no error
    of its own, and the links of the other videos of the week are lost with
    it. *)
Lemma empty_qualities_fault :
  choose_link "720" Course.no_qualities = Raise IndexError /\
  missing_value_fault IndexError = true /\
  choose_link "720" (Course.video "a")
    = Ok {| url := JStr "a-720"; msg := None |} /\
  url_list_with_q "720" [Course.video "a"; Course.no_qualities; Course.video "b"]
    = Raise IndexError.
Proof. repeat split. Qed.

(** * Further properties *)

(** ** Comprehensions *)

Lemma mapR_Forall2 {A B} (f : A -> result B) l : forall out,
  mapR f l = Ok out <-> Forall2 (fun x y => f x = Ok y) l out.
Proof.
  induction l as [| x rest IH]; intros out; cbn [mapR].
  - split.
    + intros [= <-]. constructor.
    + intros H. now inversion H.
  - destruct (f x) as [y | e] eqn:Hx; cbn [rbind].
    + destruct (mapR f rest) as [ys | e] eqn:Hrest; cbn [rbind].
      * split.
        -- intros [= <-]. constructor; [exact Hx | now apply IH].
        -- intros H. inversion H as [| x' y' rest' ys' Hy Hys]; subst.
           apply IH in Hys. congruence.
      * split; [discriminate |].
        intros H. inversion H as [| x' y' rest' ys' Hy Hys]; subst.
        apply IH in Hys. discriminate.
    + split; [discriminate |].
      intros H. inversion H; congruence.
Qed.

Lemma mapR_stops {A B} (f : A -> result B) before x after e :
  (forall b, In b before -> exists y, f b = Ok y) ->
  f x = Raise e ->
  mapR f (before ++ x :: after) = Raise e.
Proof.
  intros Hbefore Hx.
  induction before as [| b before IH]; cbn [app mapR].
  - now rewrite Hx.
  - destruct (Hbefore b (or_introl eq_refl)) as [y ->]. cbn [rbind].
    rewrite IH; [reflexivity |].
    intros b' Hb'. apply Hbefore. now right.
Qed.

(** ** The dispatcher, continued *)

Section DispatcherEdges.

Variable World : Type.

(** X1.  A token endpoint that answers with status 200 does not yet give a
    dispatcher: the constructor raises what the parser raises on the text,
    [KeyError] when the parsed dictionary has no [access_token], and
    [TypeError] when the parsed value is not a dictionary. *)
Theorem init_malformed_body client_id client_secret auth_manager parser
    (net : NetManager World) w resp w1 :
  post net "https://stepik.org/oauth2/token/"
    [("grant_type", "client_credentials")]
    (auth_manager client_id client_secret) w = (Ok resp, w1) ->
  status_code resp = 200%Z ->
  (forall e w2,
     parser (text resp) w1 = (Raise e, w2) ->
     init client_id client_secret auth_manager parser net w = Some (Raise e, w2)) /\
  (forall fields w2,
     parser (text resp) w1 = (Ok (JObj fields), w2) ->
     assoc "access_token" fields = None ->
     init client_id client_secret auth_manager parser net w
       = Some (Raise (KeyError (JStr "access_token")), w2)) /\
  (forall body w2,
     parser (text resp) w1 = (Ok body, w2) ->
     (forall fields, body <> JObj fields) ->
     init client_id client_secret auth_manager parser net w
       = Some (Raise TypeError, w2)).
Proof.
  intros Hpost H200. unfold init, call, bind. rewrite Hpost, H200.
  cbn [Z.eqb Pos.eqb]. repeat split.
  - intros e w2 Hparse. now rewrite Hparse.
  - intros fields w2 Hparse Hnone. rewrite Hparse.
    unfold lift, getitem_str. now rewrite Hnone.
  - intros body w2 Hparse Hshape. rewrite Hparse.
    destruct body; try reflexivity. now destruct (Hshape fields).
Qed.

(** X2.  A dispatcher that [__init__] has built keeps the parser and the
    transport it was given, and each of its requests goes to that transport
    with the header [Authorization: Bearer <token>]; when the token the
    endpoint gave is not a string, the request raises [TypeError] and the
    transport is not called. *)
Theorem init_token_in_requests client_id client_secret auth_manager parser
    (net : NetManager World) w d w' :
  init client_id client_secret auth_manager parser net w = Some (Ok d, w') ->
  json_parser d = parser /\
  net_manager d = net /\
  forall url params w2,
    authorized_get d url params w2 =
    match token d with
    | JStr t =>
        Some (get net url [("Authorization", ("Bearer " ++ t)%string)] params w2)
    | _ => Some (Raise TypeError, w2)
    end.
Proof.
  intros Hinit. unfold init, call, bind, lift, ret, raise in Hinit.
  destruct (post net _ _ _ w) as [[resp | e] w1]; [| discriminate].
  destruct (status_code resp =? 200)%Z.
  - destruct (parser (text resp) w1) as [[body | e] w2]; [| discriminate].
    destruct (getitem_str body "access_token") as [tok | e]; [| discriminate].
    injection Hinit as <- <-. cbn [json_parser net_manager token].
    repeat split.
    intros url params w3. unfold authorized_get, bind, lift, call.
    cbn [token net_manager]. now destruct tok.
  - destruct (status_code resp =? 401)%Z; discriminate.
Qed.

Variable self : StepikDispatcher World.

(** X3.  A page that is answered with status 200 but lacks a key makes
    [get_resources_list] raise [KeyError] at once: for the key of the
    resource first, then for [meta], then for [has_next]. *)
Theorem get_resources_list_malformed_page api_resource ids page w resp w1
    fields w2 fuel :
  resource_request self api_resource ids page w = Some (Ok resp, w1) ->
  status_code resp = 200%Z ->
  json_parser self (text resp) w1 = (Ok (JObj fields), w2) ->
  (assoc api_resource fields = None ->
   get_resources_list (S fuel) self api_resource ids page w
     = Some (Raise (KeyError (JStr api_resource)), w2)) /\
  (forall resources,
     assoc api_resource fields = Some resources ->
     assoc "meta" fields = None ->
     get_resources_list (S fuel) self api_resource ids page w
       = Some (Raise (KeyError (JStr "meta")), w2)) /\
  (forall resources meta,
     assoc api_resource fields = Some resources ->
     assoc "meta" fields = Some (JObj meta) ->
     assoc "has_next" meta = None ->
     get_resources_list (S fuel) self api_resource ids page w
       = Some (Raise (KeyError (JStr "has_next")), w2)).
Proof.
  intros Hreq H200 Hparse.
  rewrite get_resources_list_unfold.
  erewrite bind_ok by exact Hreq. rewrite H200. cbn [Z.eqb Pos.eqb].
  unfold call, bind, lift. rewrite Hparse. cbn [getitem_str].
  repeat split.
  - intros ->. reflexivity.
  - intros resources -> ->. reflexivity.
  - intros resources meta Hresources Hmeta Hnext.
    rewrite Hresources, Hmeta. cbn [getitem_str]. now rewrite Hnext.
Qed.

(** X4.  [get_list_of_week_ids] does not look at the status of the answer:
    whatever it is, the sections of the first course of the parsed body are
    returned; a body whose list of courses is empty raises [IndexError]. *)
Theorem get_list_of_week_ids_any_status course_id w resp w1 body w2 :
  authorized_get self ("http://stepik.org/api/courses/" ++ str course_id) None w
    = Some (Ok resp, w1) ->
  json_parser self (text resp) w1 = (Ok body, w2) ->
  (forall course others sections,
     getitem_str body "courses" = Ok (JArr (course :: others)) ->
     getitem_str course "sections" = Ok sections ->
     get_list_of_week_ids self course_id w = Some (Ok sections, w2)) /\
  (getitem_str body "courses" = Ok (JArr []) ->
   get_list_of_week_ids self course_id w = Some (Raise IndexError, w2)).
Proof.
  intros Hget Hparse.
  assert (Hbody : get_and_parse_authorized self
                    ("http://stepik.org/api/courses/" ++ str course_id) w
                  = Some (Ok body, w2)).
  { unfold get_and_parse_authorized. erewrite bind_ok by exact Hget.
    unfold call. now rewrite Hparse. }
  unfold get_list_of_week_ids. erewrite bind_ok by exact Hbody.
  split.
  - intros course others sections Hcourses Hsections.
    erewrite bind_lift_ok by exact Hcourses.
    erewrite bind_lift_ok by reflexivity.
    unfold lift. now rewrite Hsections.
  - intros Hcourses. erewrite bind_lift_ok by exact Hcourses. reflexivity.
Qed.

(** X5.  Each of the three getters that pluck a field, asked with the
    resource it fetches and the field it reads, follows the server: when the
    request gave the list [items], the getter succeeds exactly when every
    item has the field, and returns the fields of the items, one for each
    item the server returned and in the server's order. *)
Theorem getters_follow_server getter api_resource field fuel ids w items w' :
  In (getter, (api_resource, field))
     [ (get_lists_of_units (World := World), ("sections", "units"));
       (get_list_of_lessons_ids (World := World), ("units", "lesson"));
       (get_lists_of_step_ids (World := World), ("lessons", "steps")) ] ->
  get_resources_list fuel self api_resource ids 1 w = Some (Ok (JArr items), w') ->
  forall out,
    getter fuel self ids w = Some (Ok out, w') <->
    Forall2 (fun item value => getitem_str item field = Ok value) items out.
Proof.
  intros Hgetter Hfetch out.
  rewrite <- mapR_Forall2.
  destruct Hgetter as [[= <- <- <-] | [[= <- <- <-] | [[= <- <- <-] | []]]];
    [unfold get_lists_of_units | unfold get_list_of_lessons_ids
     | unfold get_lists_of_step_ids];
    erewrite bind_ok by exact Hfetch; cbn [iter];
    unfold bind, lift; split; intros H; congruence.
Qed.

End DispatcherEdges.

(** ** The resolver, continued *)

Section ResolverEdges.

Variable World : Type.
Variable self : StepikDispatcher World.

Lemma index_out_of_range {A} (l : list A) (i : Z) :
  (Z.of_nat (length l) <= i)%Z -> index l i = Raise IndexError.
Proof.
  intros Hi. unfold index.
  destruct (0 <=? i)%Z eqn:H0; [| apply Z.leb_gt in H0; lia].
  destruct (nth_error l (Z.to_nat i)) eqn:Hnth; [| reflexivity].
  assert (Hlt : Z.to_nat i < length l)
    by (apply nth_error_Some; congruence).
  lia.
Qed.

(** X6.  The loop counts the weeks by the ids the course lists and reads
    the units from the answer to the sections request.  When that answer
    has fewer sections than the course lists, the resolution raises
    [IndexError]: without a filter after the weeks that have units were
    resolved, with a filter as soon as the wanted week is one without. *)
Theorem missing_sections_index_error fuel course_id w all_unit_ids n w2 :
  sections_listed self fuel course_id w all_unit_ids n w2 ->
  length all_unit_ids < n ->
  (forall done w3,
     runs_each (resolve_week self fuel all_unit_ids)
       (range 1 (Z.of_nat (length all_unit_ids) + 1)) w2 done w3 ->
     get_course_videos_urls_by_section fuel course_id self None w
       = Some (Raise IndexError, w3)) /\
  (forall wanted,
     (Z.of_nat (length all_unit_ids) < wanted <= Z.of_nat n)%Z ->
     get_course_videos_urls_by_section fuel course_id self (Some wanted) w
       = Some (Raise IndexError, w2)).
Proof.
  intros Hlisted Hshort. split.
  - intros done w3 Hruns.
    erewrite resolution_after_sections by exact Hlisted.
    rewrite (range_split 1 (Z.of_nat (length all_unit_ids) + 1) (Z.of_nat n + 1))
      by lia.
    rewrite weeks_loop_app.
    erewrite bind_ok by (apply weeks_loop_all; exact Hruns).
    rewrite range_cons by lia. cbn [weeks_loop skipped].
    unfold bind, lift. now rewrite index_out_of_range by lia.
  - intros wanted Hwanted.
    erewrite resolution_after_sections by exact Hlisted.
    rewrite (range_split 1 wanted (Z.of_nat n + 1)) by lia.
    rewrite weeks_loop_app.
    erewrite bind_ok
      by (apply weeks_loop_skips; intros x Hx; apply range_In in Hx; lia).
    rewrite range_cons by lia. cbn [weeks_loop skipped].
    rewrite Z.eqb_refl. cbn [negb].
    unfold bind, lift. now rewrite index_out_of_range by lia.
Qed.

End ResolverEdges.

Lemma flatten_parts lists parts :
  Forall2 (fun v part => iter v = Ok part) lists parts ->
  flatten lists = Ok (concat parts).
Proof.
  induction 1 as [| v part lists parts Hv Hrest IH]; [reflexivity |].
  cbn [flatten concat]. rewrite Hv. cbn [rbind]. now rewrite IH.
Qed.

Lemma flatten_inv lists : forall out,
  flatten lists = Ok out ->
  exists parts,
    Forall2 (fun v part => iter v = Ok part) lists parts /\ out = concat parts.
Proof.
  induction lists as [| v rest IH]; intros out; cbn [flatten].
  - intros [= <-]. exists []. split; [constructor | reflexivity].
  - destruct (iter v) as [part | e] eqn:Hv; [| discriminate]. cbn [rbind].
    destruct (flatten rest) as [more | e]; [| discriminate]. cbn [rbind].
    intros [= <-]. destruct (IH more eq_refl) as (parts & Hparts & ->).
    exists (part :: parts). split; [now constructor | reflexivity].
Qed.

(** X7.  The flattening of the step id lists succeeds exactly when every
    element can be iterated over, and gives the elements of all of them in
    order, list after list; for lists of ids this is their concatenation. *)
Theorem flatten_in_order :
  (forall lists out,
     flatten lists = Ok out <->
     exists parts,
       Forall2 (fun v part => iter v = Ok part) lists parts /\
       out = concat parts) /\
  (forall id_lists, flatten (map JArr id_lists) = Ok (concat id_lists)).
Proof.
  split.
  - intros lists out. split; [apply flatten_inv |].
    intros (parts & Hparts & ->). now apply flatten_parts.
  - intros id_lists. apply flatten_parts.
    induction id_lists; constructor; [reflexivity | assumption].
Qed.

Lemma videos_in_length steps out : videos_in steps out -> length out <= length steps.
Proof. induction 1; cbn; lia. Qed.

(** X8.  The two comprehensions over the steps of a week succeed exactly
    on the lists of steps that [videos_in] describes: every step needs a
    block with a video field, and a truthy video needs its urls.  There are
    then no more videos than steps. *)
Theorem extract_videos_exactly steps out :
  (extract_videos (JArr steps) = Ok out <-> videos_in steps out) /\
  (extract_videos (JArr steps) = Ok out -> length out <= length steps).
Proof.
  assert (Hinv : extract_videos (JArr steps) = Ok out -> videos_in steps out)
    by apply extract_videos_inv.
  split; [split |].
  - exact Hinv.
  - intros Hvideos. exact (only_video_blocks_videos _ _ Hvideos).
  - intros Hout. now apply videos_in_length, Hinv.
Qed.

(** ** The choice of a link, continued *)

Lemma link_matches_inv quality link found :
  link_matches quality link = Some found ->
  exists fields,
    link = JObj fields /\
    assoc "quality" fields = Some (JStr quality) /\
    assoc "url" fields = Some found.
Proof.
  unfold link_matches. destruct link as [| | | | | fields]; try discriminate.
  destruct (assoc "quality" fields) as [[| | | q | |] |] eqn:Hq; try discriminate.
  destruct (assoc "url" fields) as [u |] eqn:Hu; [| discriminate].
  destruct (String.eqb_spec q quality) as [-> |]; [| discriminate].
  intros [= <-]. eauto.
Qed.

Lemma scan_qualities_found quality links :
  scan_qualities quality links <> JNull ->
  exists fields,
    In (JObj fields) links /\
    assoc "quality" fields = Some (JStr quality) /\
    assoc "url" fields = Some (scan_qualities quality links).
Proof.
  induction links as [| link rest IH]; cbn [scan_qualities]; [congruence |].
  destruct (link_matches quality link) as [found |] eqn:Hlink.
  - intros _. apply link_matches_inv in Hlink as (fields & -> & Hq & Hu).
    exists fields. repeat split; [now left | exact Hq | exact Hu].
  - intros Hfound. destruct (IH Hfound) as (fields & Hin & Hq & Hu).
    exists fields. repeat split; [now right | exact Hq | exact Hu].
Qed.

(** X9.  Whatever the quality list of a video holds, a link that is chosen
    without a message is the url, not [None], of a dictionary of the list
    whose quality is the requested one; a link that is chosen with a
    message is the url of the first element of the list, and the message
    names the requested quality. *)
Theorem choose_link_sound quality video el :
  choose_link quality video = Ok el ->
  match msg el with
  | None =>
      url el <> JNull /\
      exists links fields,
        iter (available_qualities video) = Ok links /\
        In (JObj fields) links /\
        assoc "quality" fields = Some (JStr quality) /\
        assoc "url" fields = Some (url el)
  | Some text =>
      text = ("The requested quality = " ++ quality ++ " is not available!")%string /\
      exists first,
        getitem_int (available_qualities video) 0 = Ok first /\
        getitem_str first "url" = Ok (url el)
  end.
Proof.
  unfold choose_link.
  destruct (iter (available_qualities video)) as [links | e] eqn:Hiter;
    [| discriminate].
  cbn [rbind].
  destruct (scan_qualities quality links) eqn:Hscan.
  1: { destruct (getitem_int (available_qualities video) 0) as [first | e] eqn:Hfirst;
         [| discriminate].
       cbn [rbind].
       destruct (getitem_str first "url") as [u | e] eqn:Hurl; [| discriminate].
       intros [= <-]. cbn [msg url]. split; [reflexivity | eauto]. }
  all: intros [= <-]; cbn [msg url]; split; [discriminate |];
    destruct (scan_qualities_found quality links) as (record & Hin & Hq & Hu);
    [rewrite Hscan; discriminate |];
    exists links, record; rewrite Hscan in Hu; auto.
Qed.

(** X10.  The scan stops at the first dictionary with the requested
    quality; when the url of that one is [None] the video is treated as if
    the quality were not there, even when a later one has it: the link is
    the url of the first element of the list, with the message. *)
Theorem null_url_falls_back quality before fields after :
  (forall link, In link before -> link_matches quality link = None) ->
  assoc "quality" fields = Some (JStr quality) ->
  assoc "url" fields = Some JNull ->
  choose_link quality
    {| available_qualities := JArr (before ++ JObj fields :: after) |}
  = rbind (getitem_str (hd (JObj fields) before) "url") (fun video_link =>
      Ok {| url := video_link; msg := Some (unavailable_message quality) |}).
Proof.
  intros Hbefore Hquality Hurl.
  assert (Hscan : scan_qualities quality (before ++ JObj fields :: after) = JNull).
  { induction before as [| link before IH]; cbn [app scan_qualities].
    - unfold link_matches. rewrite Hquality, Hurl. now rewrite String.eqb_refl.
    - rewrite (Hbefore link (or_introl eq_refl)).
      apply IH. intros l Hl. apply Hbefore. now right. }
  unfold choose_link. cbn [available_qualities iter rbind]. rewrite Hscan.
  now destruct before.
Qed.

(** ** The downloads of [main] *)

Lemma call_run {World A} (c : World -> result A * World) w r :
  fst (c w) = r -> call c w = Some (r, after c w).
Proof. unfold call, after. destruct (c w). cbn. now intros ->. Qed.

Lemma str_inj a b : str a = str b -> a = b.
Proof.
  assert (Hnorm : forall z, Z.to_int z <> Decimal.Pos Decimal.Nil /\
                            Z.to_int z <> Decimal.Neg Decimal.Nil).
  { intros [| p | p]; cbn; split; try discriminate;
      intros [= H]; now apply DecimalPos.Unsigned.to_uint_nonnil in H. }
  unfold str. intros H. apply DecimalZ.to_int_inj.
  apply (f_equal NilZero.int_of_string) in H.
  rewrite !NilZero.isi in H by apply Hnorm. congruence.
Qed.

Lemma append_inj_l s a b : (s ++ a = s ++ b)%string -> a = b.
Proof. induction s as [| c s IH]; cbn; [auto | intros [= H]; auto]. Qed.

Lemma append_inj_r t : forall a b, (a ++ t = b ++ t)%string -> a = b.
Proof.
  assert (Hlen : forall a b : string,
            String.length (a ++ b) = String.length a + String.length b).
  { induction a; cbn; intros; [reflexivity | now rewrite IHa]. }
  induction a as [| c a IH]; intros [| d b] H; cbn in H.
  - reflexivity.
  - apply (f_equal String.length) in H. cbn in H. rewrite Hlen in H. lia.
  - apply (f_equal String.length) in H. cbn in H. rewrite Hlen in H. lia.
  - injection H as -> H. f_equal. now apply IH.
Qed.

Section Downloads.

Variable World : Type.

Lemma download_video_skipped (os os' : System World) folder el
    (present : World -> Prop) video_num w :
  same_checks os os' ->
  present w ->
  (forall args w', present w' -> present (after (print os args) w')) ->
  (forall f w', present w' -> present (after (isfile os f) w')) ->
  (forall w', present w' ->
     fst (isfile os (video_filename os folder video_num) w') = Ok true) ->
  download_video os folder video_num el w = download_video os' folder video_num el w /\
  (forall w1, download_video os folder video_num el w = Some (Ok tt, w1) ->
     present w1).
Proof.
  intros (Hjoin & Hisfile & Hprint) Hw Hprints Hfinds Hthere.
  destruct os as [join dir mk isf rm fetch pr],
           os' as [join' dir' mk' isf' rm' fetch' pr'].
  cbn [path_join isfile print] in Hjoin, Hisfile, Hprint, Hprints, Hfinds.
  subst join' isf' pr'.
  unfold download_video, video_filename in *.
  cbn [path_join isfile print remove urlretrieve] in *.
  set (file := join folder [("Video_" ++ str video_num ++ ".mp4")%string]) in *.
  assert (Hmsg : exists out,
            match has_message el with
            | Some text => call (pr [text])
            | None => ret tt
            end w = Some out /\
            (forall w1, out = (Ok tt, w1) -> present w1)).
  { destruct (has_message el) as [text |].
    - eexists. split; [reflexivity |].
      intros w1 H. specialize (Hprints [text] w Hw). unfold after in Hprints.
      rewrite H in Hprints. exact Hprints.
    - eexists. split; [reflexivity |]. now intros w1 [= <-]. }
  destruct Hmsg as ([[[] | e] w1] & Hmsg & Hw1).
  2: { rewrite !(bind_raise _ _ _ _ _ _ Hmsg). split; [reflexivity | discriminate]. }
  specialize (Hw1 w1 eq_refl).
  assert (Hfound := Hthere w1 Hw1).
  assert (Hw2 := Hfinds file w1 Hw1).
  apply call_run in Hfound.
  rewrite !(bind_ok _ _ _ _ _ _ Hmsg).
  rewrite !(bind_ok _ _ _ _ _ _ Hfound).
  cbn [negb].
  split; [reflexivity |].
  intros w3 H. unfold call in H. injection H as H.
  apply (f_equal snd) in H. cbn [snd] in H. rewrite <- H.
  exact (Hprints [("File " ++ file ++ " already exist")%string] _ Hw2).
Qed.

(** X11.  Files that are there are left alone.  When, along the run, every
    file of the week is found, the loop over the videos does the same with
    any two systems that agree on joining paths, finding files and
    printing: it neither transfers nor removes anything. *)
Theorem existing_files_skipped (os os' : System World) folder els
    (present : World -> Prop) video_num w :
  same_checks os os' ->
  present w ->
  (forall args w', present w' -> present (after (print os args) w')) ->
  (forall f w', present w' -> present (after (isfile os f) w')) ->
  (forall i w',
     (video_num <= i < video_num + Z.of_nat (length els))%Z ->
     present w' ->
     fst (isfile os (video_filename os folder i) w') = Ok true) ->
  download_videos os folder video_num els w
  = download_videos os' folder video_num els w.
Proof.
  intros Hsame Hw Hprints Hfinds Hthere.
  revert video_num w Hw Hthere.
  induction els as [| el rest IH]; intros video_num w Hw Hthere; [reflexivity |].
  cbn [download_videos].
  destruct (download_video_skipped os os' folder el present video_num w
              Hsame Hw Hprints Hfinds) as [Hvideo Hafter].
  { intros w' Hw'. apply Hthere; [cbn [length]; lia | exact Hw']. }
  unfold bind. rewrite <- Hvideo.
  destruct (download_video os folder video_num el w) as [[[[] | e] w1] |];
    try reflexivity.
  apply IH; [now apply Hafter |].
  intros i w' Hi. apply Hthere. cbn [length]. lia.
Qed.

Lemma bind_ret {A B} (a : A) (k : A -> M World B) w : bind (ret a) k w = k a w.
Proof. reflexivity. Qed.

Lemma try_except_caught {A} (body : M World A) handlers w e w' handler :
  body w = Some (Raise e, w') ->
  handlers e = Some handler ->
  try_except body handlers w = handler w'.
Proof. intros Hbody Hhandler. unfold try_except. now rewrite Hbody, Hhandler. Qed.

Variable os : System World.

(** The message of a fallback, when the link has one, is printed first. *)
Lemma message_printed el w :
  (forall text, has_message el = Some text -> fst (print os [text] w) = Ok tt) ->
  match has_message el with
  | Some text => call (print os [text])
  | None => ret tt
  end w
  = Some (Ok tt,
          match has_message el with
          | Some text => after (print os [text]) w
          | None => w
          end).
Proof.
  intros Hprint. destruct (has_message el) as [text |]; [| reflexivity].
  apply call_run. now apply Hprint.
Qed.

(** X12.  A transfer that comes out too short costs one video only,
    whether its link was chosen by quality or by fallback: the file is
    removed, the removal is reported, and the loop goes on with the next
    video. *)
Theorem short_transfer_is_removed folder video_num el rest w :
  let file := video_filename os folder video_num in
  let w0 := match has_message el with
            | Some text => after (print os [text]) w
            | None => w
            end in
  let w1 := after (isfile os file) w0 in
  let w2 := after (print os ["Downloading file "; file]) w1 in
  let w3 := after (urlretrieve os (url el) file) w2 in
  let w4 := after (remove os file) w3 in
  let w5 := after (print os [("Error while downloading. File " ++ file
                              ++ " deleted:")%string]) w4 in
  (forall text, has_message el = Some text -> fst (print os [text] w) = Ok tt) ->
  fst (isfile os file w0) = Ok false ->
  fst (print os ["Downloading file "; file] w1) = Ok tt ->
  fst (urlretrieve os (url el) file w2)
    = Raise (ExternalError "ContentTooShortError") ->
  fst (remove os file w3) = Ok tt ->
  fst (print os [("Error while downloading. File " ++ file ++ " deleted:")%string] w4)
    = Ok tt ->
  download_videos os folder video_num (el :: rest) w
  = download_videos os folder (video_num + 1) rest w5.
Proof.
  intros file w0 w1 w2 w3 w4 w5 Hmsg Hfile Hprint Hfetch Hremove Hreport.
  apply message_printed in Hmsg. fold w0 in Hmsg.
  apply call_run in Hfile, Hprint, Hfetch, Hremove, Hreport.
  cbn [download_videos].
  assert (Hvideo : download_video os folder video_num el w = Some (Ok tt, w5)).
  { unfold download_video. rewrite (bind_ok _ _ _ _ _ _ Hmsg).
    cbv beta zeta. fold file.
    rewrite (bind_ok _ _ _ _ _ _ Hfile). cbn [negb].
    erewrite (try_except_caught _ _ _ (ExternalError "ContentTooShortError") w3);
      [| | reflexivity].
    - rewrite (bind_ok _ _ _ _ _ _ Hremove). exact Hreport.
    - rewrite (bind_ok _ _ _ _ _ _ Hprint).
      apply bind_raise. exact Hfetch. }
  now rewrite (bind_ok _ _ _ _ _ _ Hvideo).
Qed.

(** X13.  An interrupt during a transfer ends the run, whether the link of
    the video was chosen by quality or by fallback: the file is removed if
    it is there, the abort is reported and SystemExit is raised; the videos
    that follow are not looked at. *)
Theorem interrupt_ends_the_run folder video_num el rest w (there : bool) :
  let file := video_filename os folder video_num in
  let w0 := match has_message el with
            | Some text => after (print os [text]) w
            | None => w
            end in
  let w1 := after (isfile os file) w0 in
  let w2 := after (print os ["Downloading file "; file]) w1 in
  let w3 := after (urlretrieve os (url el) file) w2 in
  let w4 := after (isfile os file) w3 in
  let w5 := if there then after (remove os file) w4 else w4 in
  let w6 := after (print os [(newline ++ "Aborted")%string]) w5 in
  (forall text, has_message el = Some text -> fst (print os [text] w) = Ok tt) ->
  fst (isfile os file w0) = Ok false ->
  fst (print os ["Downloading file "; file] w1) = Ok tt ->
  fst (urlretrieve os (url el) file w2)
    = Raise (ExternalError "KeyboardInterrupt") ->
  fst (isfile os file w3) = Ok there ->
  (there = true -> fst (remove os file w4) = Ok tt) ->
  fst (print os [(newline ++ "Aborted")%string] w5) = Ok tt ->
  download_videos os folder video_num (el :: rest) w = Some (Raise SystemExit, w6).
Proof.
  intros file w0 w1 w2 w3 w4 w5 w6 Hmsg Hfile Hprint Hfetch Hleft Hremove Hreport.
  apply message_printed in Hmsg. fold w0 in Hmsg.
  apply call_run in Hfile, Hprint, Hfetch, Hleft, Hreport.
  cbn [download_videos]. apply bind_raise.
  unfold download_video. rewrite (bind_ok _ _ _ _ _ _ Hmsg).
  cbv beta zeta. fold file.
  rewrite (bind_ok _ _ _ _ _ _ Hfile). cbn [negb].
  erewrite (try_except_caught _ _ _ (ExternalError "KeyboardInterrupt") w3);
    [| | reflexivity].
  - rewrite (bind_ok _ _ _ _ _ _ Hleft).
    assert (Hclean : (if there then call (remove os file) else ret tt) w4
                     = Some (Ok tt, w5)).
    { subst w5. destruct there; [| reflexivity].
      apply call_run. now apply Hremove. }
    rewrite (bind_ok _ _ _ _ _ _ Hclean).
    now rewrite (bind_ok _ _ _ _ _ _ Hreport).
  - rewrite (bind_ok _ _ _ _ _ _ Hprint).
    apply bind_raise. exact Hfetch.
Qed.

(** X14.  When the folder of a week is not there and cannot be made, for
    want of permission or because something of that name exists, the week
    ends the run: the reason is printed and SystemExit is raised before any
    file of the week is looked for. *)
Theorem folder_failure_ends_the_run args week_num video_urls els class text w :
  let folder := folder_name os args week_num in
  let w1 := after (isdir os folder) w in
  let w2 := after (makedirs os folder) w1 in
  let w3 := after (print os [text]) w2 in
  In (class, text)
     [ ("PermissionError", "Run the script from admin");
       ("FileExistsError", ("Please delete the folder " ++ folder)%string) ] ->
  url_list_with_q (quality args) video_urls = Ok els ->
  fst (isdir os folder w) = Ok false ->
  fst (makedirs os folder w1) = Raise (ExternalError class) ->
  fst (print os [text] w2) = Ok tt ->
  download_week os args week_num video_urls w = Some (Raise SystemExit, w3).
Proof.
  intros folder w1 w2 w3 Hclass Hels Hdir Hmake Hprint.
  apply call_run in Hdir, Hmake, Hprint.
  unfold download_week. rewrite (bind_lift_ok _ _ _ _ _ Hels).
  fold folder. apply bind_raise.
  unfold create_folder. rewrite (bind_ok _ _ _ _ _ _ Hdir). cbn [negb].
  destruct Hclass as [[= <- <-] | [[= <- <-] | []]].
  - erewrite try_except_caught; [| exact Hmake | reflexivity].
    now rewrite (bind_ok _ _ _ _ _ _ Hprint).
  - erewrite try_except_caught; [| exact Hmake | reflexivity].
    now rewrite (bind_ok _ _ _ _ _ _ Hprint).
Qed.

(** X18.  The links of all the videos of a week are chosen before anything
    is done for the week: a video without qualities makes the week raise
    [IndexError] with no folder made, nothing printed and no file looked
    for. *)
Theorem empty_qualities_before_folder args week_num before after w :
  (forall video, In video before ->
     exists el, choose_link (quality args) video = Ok el) ->
  download_week os args week_num
    (before ++ {| available_qualities := JArr [] |} :: after) w
  = Some (Raise IndexError, w).
Proof.
  intros Hbefore. unfold download_week, url_list_with_q.
  rewrite (mapR_stops (choose_link (quality args)) before
             {| available_qualities := JArr [] |} after IndexError Hbefore eq_refl).
  reflexivity.
Qed.

End Downloads.

Section MainFacts.

Variable World : Type.
Variable os : System World.

Lemma wanted_week_resolved (d : StepikDispatcher World) fuel course_id wanted w
    all_unit_ids n w2 videos w3 :
  sections_listed d fuel course_id w all_unit_ids n w2 ->
  (1 <= wanted <= Z.of_nat n)%Z ->
  resolve_week d fuel all_unit_ids wanted w2 = Some (Ok videos, w3) ->
  get_course_videos_urls_by_section fuel course_id d (Some wanted) w
    = Some (Ok [videos], w3).
Proof.
  intros Hlisted Hwanted Hweek.
  apply resolve_week_inv in Hweek as (unit_ids & Hindex & Hvideos).
  erewrite resolution_after_sections by exact Hlisted.
  rewrite (range_split 1 wanted (Z.of_nat n + 1)) by lia.
  rewrite weeks_loop_app.
  erewrite bind_ok
    by (apply weeks_loop_skips; intros x Hx; apply range_In in Hx; lia).
  rewrite range_cons by lia. cbn [weeks_loop skipped].
  rewrite Z.eqb_refl. cbn [negb app].
  rewrite (bind_lift_ok _ _ _ _ _ Hindex).
  rewrite (bind_ok _ _ _ _ _ _ Hvideos).
  apply weeks_loop_skips. intros x Hx. apply range_In in Hx. lia.
Qed.

(** X15.  The folder of a week is numbered by the place of its list in
    what the resolver returned, not by the number of the week: with a week
    filter the resolver returns one list, and [main] downloads the wanted
    week as week 1, into the folder [week_1]. *)
Theorem wanted_week_is_week_1 fuel args json_loads requests w d w1
    all_unit_ids n w2 wanted videos w3 :
  init (client_id args) (client_secret args) Build_HTTPBasicAuth json_loads
    requests w = Some (Ok d, w1) ->
  sections_listed d fuel (course_id args) w1 all_unit_ids n w2 ->
  week_id args = Some wanted ->
  (1 <= wanted <= Z.of_nat n)%Z ->
  resolve_week d fuel all_unit_ids wanted w2 = Some (Ok videos, w3) ->
  main os fuel args json_loads requests w
  = (_ <- download_week os args 1 videos ;; ret tt) w3.
Proof.
  intros Hinit Hlisted Hfilter Hwanted Hweek.
  unfold main. rewrite (bind_ok _ _ _ _ _ _ Hinit). rewrite Hfilter.
  rewrite (bind_ok _ _ _ _ _ _
             (wanted_week_resolved d fuel (course_id args) wanted w1
                all_unit_ids n w2 videos w3 Hlisted Hwanted Hweek)).
  reflexivity.
Qed.

(** X16.  Two videos of a week never get the same file: when the paths of
    a folder are told apart by their last part, the file names of different
    positions differ. *)
Theorem video_filenames_distinct folder i j :
  (forall a b, path_join os folder [a] = path_join os folder [b] -> a = b) ->
  i <> j ->
  video_filename os folder i <> video_filename os folder j.
Proof.
  intros Hjoin Hdiff Hsame. apply Hdiff. unfold video_filename in Hsame.
  apply Hjoin in Hsame.
  apply (append_inj_l "Video_") in Hsame.
  apply append_inj_r in Hsame. now apply str_inj.
Qed.

(** X17.  A dispatcher request that raises during the resolution ends
    [main] with that exception before the file system or the console is
    used: the outcome is the same with every system. *)
Theorem failed_resolution_touches_nothing fuel args json_loads requests w d w1
    e w2 :
  init (client_id args) (client_secret args) Build_HTTPBasicAuth json_loads
    requests w = Some (Ok d, w1) ->
  resolution_fetch_fails d fuel (course_id args) (week_id args) w1 e w2 ->
  forall system : System World,
    main system fuel args json_loads requests w = Some (Raise e, w2).
Proof.
  intros Hinit Hfails system.
  unfold main. rewrite (bind_ok _ _ _ _ _ _ Hinit).
  apply bind_raise. now apply resolution_aborts.
Qed.

End MainFacts.

(** ** The further properties at work *)

(** A token endpoint that answers 200 with a body without a token. *)
Lemma init_malformed_body_witness :
  init "id" "secret" Build_HTTPBasicAuth
    (Fake.parser [("token", JObj [("error", JStr "denied")])])
    (Course.token_endpoint 200) 0
  = Some (Raise (KeyError (JStr "access_token")), 1).
Proof.
  refine (proj1 (proj2 (init_malformed_body Fake.World "id" "secret"
                          Build_HTTPBasicAuth
                          (Fake.parser [("token", JObj [("error", JStr "denied")])])
                          (Course.token_endpoint 200) 0
                          {| status_code := 200; text := "token" |} 1
                          eq_refl eq_refl))
            [("error", JStr "denied")] 1 eq_refl eq_refl).
Defined.

(** The dispatcher built from the token [abc] sends it in its requests. *)
Lemma init_token_in_requests_witness :
  authorized_get
    {| json_parser := Course.token_parser;
       net_manager := Course.token_endpoint 200; token := JStr "abc" |}
    "http://stepik.org/api/courses/5" None 1
  = Some (get (Course.token_endpoint 200) "http://stepik.org/api/courses/5"
            [("Authorization", "Bearer abc")] None 1).
Proof.
  exact (proj2 (proj2 (init_token_in_requests Fake.World "id" "secret"
                         Build_HTTPBasicAuth Course.token_parser
                         (Course.token_endpoint 200) 0
                         {| json_parser := Course.token_parser;
                            net_manager := Course.token_endpoint 200;
                            token := JStr "abc" |} 1 eq_refl))
           "http://stepik.org/api/courses/5" None 1).
Defined.

(** A page of units without pagination metadata. *)
Lemma malformed_page_witness :
  get_resources_list 1
    (Fake.dispatcher [Fake.api "units" [1]%Z 1 (Fake.ok "bare")]
       [("bare", JObj [("units", JArr [])])])
    "units" (Fake.nums [1]%Z) 1 0
  = Some (Raise (KeyError (JStr "meta")), 1).
Proof.
  refine (proj1 (proj2 (get_resources_list_malformed_page Fake.World
                          (Fake.dispatcher [Fake.api "units" [1]%Z 1 (Fake.ok "bare")]
                             [("bare", JObj [("units", JArr [])])])
                          "units" (Fake.nums [1]%Z) 1 0 (Fake.ok "bare") 1
                          [("units", JArr [])] 1 0 eq_refl eq_refl eq_refl))
            (JArr []) eq_refl eq_refl).
Defined.

(** The sections of a course come back even from an answer of status 500. *)
Lemma week_ids_any_status_witness :
  get_list_of_week_ids
    (Fake.dispatcher
       [ {| Fake.route_url := "http://stepik.org/api/courses/5";
            Fake.route_ids := None; Fake.route_page := 1;
            Fake.reply := {| status_code := 500; text := "course" |} |} ]
       Course.bodies) 5 0
  = Some (Ok (Fake.nums [10; 20; 30]%Z), 1).
Proof.
  refine (proj1 (get_list_of_week_ids_any_status Fake.World
                   (Fake.dispatcher
                      [ {| Fake.route_url := "http://stepik.org/api/courses/5";
                           Fake.route_ids := None; Fake.route_page := 1;
                           Fake.reply := {| status_code := 500; text := "course" |} |} ]
                      Course.bodies) 5 0
                   {| status_code := 500; text := "course" |} 1
                   (JObj [("courses",
                           JArr [JObj [("sections", Fake.nums [10; 20; 30]%Z)]])]) 1
                   eq_refl eq_refl)
            (JObj [("sections", Fake.nums [10; 20; 30]%Z)]) [] _ eq_refl eq_refl).
Defined.

(** The unit lists of the three sections of the course. *)
Lemma getters_follow_server_witness :
  get_lists_of_units 5 Course.server (Fake.nums [10; 20; 30]%Z) 1
  = Some (Ok [Fake.nums [100]%Z; Fake.nums [200]%Z; Fake.nums [300]%Z], 2).
Proof.
  refine (proj2 (getters_follow_server Fake.World Course.server
                   (get_lists_of_units (World := Fake.World)) "sections"
                   "units" 5 (Fake.nums [10; 20; 30]%Z) 1
                   [ JObj [("units", Fake.nums [100]%Z)];
                     JObj [("units", Fake.nums [200]%Z)];
                     JObj [("units", Fake.nums [300]%Z)] ] 2 _ eq_refl _) _).
  - left. reflexivity.
  - repeat constructor.
Defined.

(** The course lists three sections and the server returns one. *)
Lemma missing_sections_witness :
  let server :=
    Fake.dispatcher Course.routes
      (("sections",
        Fake.page_body "sections" [JObj [("units", Fake.nums [100]%Z)]] false)
       :: Course.bodies) in
  get_course_videos_urls_by_section 5 5 server None 0
    = Some (Raise IndexError, 5) /\
  get_course_videos_urls_by_section 5 5 server (Some 3%Z) 0
    = Some (Raise IndexError, 2).
Proof.
  intros server.
  assert (Hlisted : sections_listed server 5 5 0 [Fake.nums [100]%Z] 3 2).
  { exists (Fake.nums [10; 20; 30]%Z), 1. repeat split; reflexivity. }
  pose (Hshort := missing_sections_index_error Fake.World server 5 5 0
                    [Fake.nums [100]%Z] 3 2 Hlisted ltac:(cbn; lia)).
  split.
  - refine (proj1 Hshort [[Course.video "a"]] 5 _).
    change (range 1 (Z.of_nat (length [Fake.nums [100]%Z]) + 1)) with [1%Z].
    apply runs_cons with (w1 := 5); [reflexivity | apply runs_nil].
  - refine (proj2 Hshort 3%Z _). cbn. lia.
Defined.

(** The link of a video of the course, chosen without a message. *)
Lemma choose_link_sound_witness :
  JStr "a-720" <> JNull /\
  exists links fields,
    iter (Course.qualities "a") = Ok links /\
    In (JObj fields) links /\
    assoc "quality" fields = Some (JStr "720") /\
    assoc "url" fields = Some (JStr "a-720").
Proof.
  exact (choose_link_sound "720" (Course.video "a")
           {| url := JStr "a-720"; msg := None |} eq_refl).
Defined.

(** The first record for 720 has no url; the second one is not used. *)
Lemma null_url_witness :
  choose_link "720"
    {| available_qualities :=
         JArr [ JObj [("quality", JStr "360"); ("url", JStr "A")];
                JObj [("quality", JStr "720"); ("url", JNull)];
                JObj [("quality", JStr "720"); ("url", JStr "B")] ] |}
  = Ok {| url := JStr "A";
          msg := Some "The requested quality = 720 is not available!" |}.
Proof.
  refine (null_url_falls_back "720"
            [JObj [("quality", JStr "360"); ("url", JStr "A")]]
            [("quality", JStr "720"); ("url", JNull)]
            [JObj [("quality", JStr "720"); ("url", JStr "B")]] _ eq_refl eq_refl).
  intros link [<- | []]. reflexivity.
Defined.

Lemma disk_join_last folder a b :
  path_join (Disk.system false Disk.reliable) folder [a]
    = path_join (Disk.system false Disk.reliable) folder [b] ->
  a = b.
Proof.
  cbn. intros H. apply append_inj_l in H. now injection H.
Qed.

(** Both files of the week are on the disk: a system whose transfers are
    interrupted and whose folders are locked does the same as a reliable
    one. *)
Lemma existing_files_witness :
  let el := {| url := JStr "a"; msg := None |} in
  let w := Disk.with_files ["out/Video_0.mp4"; "out/Video_1.mp4"] Disk.empty in
  download_videos (Disk.system false Disk.reliable) "out" 0 [el; el] w
  = download_videos (Disk.system true (fun _ => Some "KeyboardInterrupt"))
      "out" 0 [el; el] w.
Proof.
  intros el w.
  refine (existing_files_skipped Disk.World _ _ "out" [el; el]
            (fun w' => Disk.files w' = ["out/Video_0.mp4"; "out/Video_1.mp4"])
            0 w _ eq_refl _ _ _).
  - repeat split.
  - intros args w' Hw'. exact Hw'.
  - intros f w' Hw'. exact Hw'.
  - intros i w' Hi Hw'.
    assert (Hcases : i = 0%Z \/ i = 1%Z) by (cbn in Hi; lia).
    cbn. rewrite Hw'. destruct Hcases as [-> | ->]; reflexivity.
Defined.

(** The transfer of the first video, a fallback with its message, comes
    out too short. *)
Lemma short_transfer_witness :
  let el := {| url := JStr "a";
               msg := Some "The requested quality = 720 is not available!" |} in
  let os := Disk.system false (fun _ => Some "ContentTooShortError") in
  download_videos os "out" 0 [el; el] Disk.empty
  = download_videos os "out" 1 [el]
      {| Disk.requests := 0; Disk.folders := []; Disk.files := [];
         Disk.log :=
           [ Disk.Printed ["The requested quality = 720 is not available!"];
             Disk.Printed ["Downloading file "; "out/Video_0.mp4"];
             Disk.Fetched (JStr "a") "out/Video_0.mp4";
             Disk.Removed "out/Video_0.mp4";
             Disk.Printed
               ["Error while downloading. File out/Video_0.mp4 deleted:"] ] |}.
Proof.
  intros el os.
  exact (short_transfer_is_removed Disk.World os "out" 0 el [el] Disk.empty
           (fun _ _ => eq_refl) eq_refl eq_refl eq_refl eq_refl eq_refl).
Defined.

(** The transfer of the first video, a fallback with its message, is
    interrupted. *)
Lemma interrupt_witness :
  let el := {| url := JStr "a";
               msg := Some "The requested quality = 720 is not available!" |} in
  let os := Disk.system false (fun _ => Some "KeyboardInterrupt") in
  download_videos os "out" 0 [el; el] Disk.empty
  = Some (Raise SystemExit,
          {| Disk.requests := 0; Disk.folders := []; Disk.files := [];
             Disk.log :=
               [ Disk.Printed ["The requested quality = 720 is not available!"];
                 Disk.Printed ["Downloading file "; "out/Video_0.mp4"];
                 Disk.Fetched (JStr "a") "out/Video_0.mp4";
                 Disk.Removed "out/Video_0.mp4";
                 Disk.Printed [(newline ++ "Aborted")%string] ] |}).
Proof.
  intros el os.
  exact (interrupt_ends_the_run Disk.World os "out" 0 el [el] Disk.empty true
           (fun _ _ => eq_refl) eq_refl eq_refl eq_refl eq_refl
           (fun _ => eq_refl) eq_refl).
Defined.

(** The folders are locked. *)
Lemma folder_failure_witness :
  download_week (Disk.system true Disk.reliable) (Disk.args None) 1
    [Course.video "a"] Disk.empty
  = Some (Raise SystemExit,
          {| Disk.requests := 0; Disk.folders := []; Disk.files := [];
             Disk.log := [Disk.Printed ["Run the script from admin"]] |}).
Proof.
  refine (folder_failure_ends_the_run Disk.World (Disk.system true Disk.reliable)
            (Disk.args None) 1 [Course.video "a"]
            [{| url := JStr "a-720"; msg := None |}]
            "PermissionError" "Run the script from admin" Disk.empty
            _ eq_refl eq_refl eq_refl eq_refl).
  left. reflexivity.
Defined.

(** Week 3 of the course, asked for alone, lands in [week_1]. *)
Lemma wanted_week_witness :
  main (Disk.system false Disk.reliable) 5 (Disk.args (Some 3%Z))
    Disk.loads_of_course Disk.requests_of_course Disk.empty
  = Some (Ok tt,
          {| Disk.requests := 6;
             Disk.folders := ["out/5/week_1"];
             Disk.files := ["out/5/week_1/Video_0.mp4"];
             Disk.log :=
               [ Disk.Made "out/5/week_1";
                 Disk.Printed ["Folder_name "; "out/5/week_1"];
                 Disk.Printed ["Downloading file "; "out/5/week_1/Video_0.mp4"];
                 Disk.Fetched (JStr "b-720") "out/5/week_1/Video_0.mp4";
                 Disk.Printed ["Done"];
                 Disk.Printed ["All steps downloaded"] ] |}).
Proof.
  refine (eq_trans
            (wanted_week_is_week_1 Disk.World (Disk.system false Disk.reliable) 5
               (Disk.args (Some 3%Z)) Disk.loads_of_course Disk.requests_of_course
               Disk.empty
               {| json_parser := Disk.loads_of_course;
                  net_manager := Disk.requests_of_course; token := JStr "abc" |}
               (Disk.with_requests 1 Disk.empty)
               [Fake.nums [100]%Z; Fake.nums [200]%Z; Fake.nums [300]%Z] 3
               (Disk.with_requests 3 Disk.empty) 3 [Course.video "b"]
               (Disk.with_requests 6 Disk.empty) eq_refl _ eq_refl _ eq_refl)
            eq_refl).
  - exists (Fake.nums [10; 20; 30]%Z), (Disk.with_requests 2 Disk.empty).
    repeat split; reflexivity.
  - cbn. lia.
Defined.

(** Positions 3 and 7 of a week. *)
Lemma video_filenames_witness :
  video_filename (Disk.system false Disk.reliable) "out/5/week_1" 3
  <> video_filename (Disk.system false Disk.reliable) "out/5/week_1" 7.
Proof.
  refine (video_filenames_distinct Disk.World (Disk.system false Disk.reliable)
            "out/5/week_1" 3 7 (disk_join_last "out/5/week_1") _).
  discriminate.
Defined.

(** The steps request of week 2 is answered with status 500: [main] raises
    and the disk and the console are as they were. *)
Lemma failed_resolution_witness :
  main (Disk.system false Disk.reliable) 5 (Disk.args None) Disk.loads_of_course
    (Disk.net (Fake.net (Fake.ok "token")
                 (Fake.api "steps" [3]%Z 1 (Fake.status 500) :: Course.routes)))
    Disk.empty
  = Some (Raise (ResourceAcquisitionFailure
                   "Cannot load resources from Stepik.org (steps): server responded with 500"),
          Disk.with_requests 9 Disk.empty).
Proof.
  pose (requests := Disk.net (Fake.net (Fake.ok "token")
                      (Fake.api "steps" [3]%Z 1 (Fake.status 500) :: Course.routes))).
  pose (d := {| json_parser := Disk.loads_of_course; net_manager := requests;
                token := JStr "abc" |}).
  refine (failed_resolution_touches_nothing Disk.World 5 (Disk.args None)
            Disk.loads_of_course requests Disk.empty d
            (Disk.with_requests 1 Disk.empty) _ (Disk.with_requests 9 Disk.empty)
            eq_refl _ (Disk.system false Disk.reliable)).
  apply week_fetch_aborts
    with (all_unit_ids := [Fake.nums [100]%Z; Fake.nums [200]%Z; Fake.nums [300]%Z])
         (n := 3) (w2 := Disk.with_requests 3 Disk.empty) (week_num := 2%Z)
         (done := [[Course.video "a"]]) (w3 := Disk.with_requests 6 Disk.empty)
         (unit_ids := Fake.nums [200]%Z).
  - exists (Fake.nums [10; 20; 30]%Z), (Disk.with_requests 2 Disk.empty).
    repeat split; reflexivity.
  - cbn. lia.
  - reflexivity.
  - reflexivity.
  - reflexivity.
  - apply steps_fetch_fails
      with (lesson_ids := [JNum 2000]) (w1 := Disk.with_requests 7 Disk.empty)
           (step_lists := [Fake.nums [3]%Z]) (w2 := Disk.with_requests 8 Disk.empty)
           (step_ids := [JNum 3]);
      reflexivity.
Defined.

(** The second video of the week has no qualities. *)
Lemma empty_qualities_before_folder_witness :
  download_week (Disk.system false Disk.reliable) (Disk.args None) 1
    ([Course.video "a"] ++ Course.no_qualities :: [Course.video "b"]) Disk.empty
  = Some (Raise IndexError, Disk.empty).
Proof.
  refine (empty_qualities_before_folder Disk.World (Disk.system false Disk.reliable)
            (Disk.args None) 1 [Course.video "a"] [Course.video "b"] Disk.empty _).
  intros video [<- | []]. eexists. reflexivity.
Defined.
